(** * Search API: shallow embedding and verification

    The Go packages of the search service ([dto], [repositories],
    [services], [controllers], [consumers]) are embedded one Rocq module
    per package.  Stateful code is written in state-passing style: a
    method of a Go struct that talks to a collaborator takes the
    collaborator's state and returns the new state next to its results.
    Go interfaces ([SolrRepository], [CacheRepository], [SearchService])
    and the external clients (HTTP, memcached, JSON, fmt) are type
    classes, so every theorem about a layer holds for any behaviour of
    the layers below it. *)

From Stdlib Require Import ZArith List String Ascii Lia Bool DecimalString.
From Corelib Require Import PrimFloat.
From stdpp Require Import base option gmap strings list fin_maps.

Open Scope string_scope.
Open Scope Z_scope.

(* ===================================================================== *)
(** * Part I: the embedding                                               *)
(* ===================================================================== *)

(** ** Go runtime: machine integers, errors and the [strings] package *)
Module golang.

(** Go's [int] on the 64-bit targets the service is built for: a Z kept
    in [minInt, maxInt], arithmetic wrapping around in two's complement. *)
Definition int := Z.
Definition minInt : Z := - 2 ^ 63.
Definition maxInt : Z := 2 ^ 63 - 1.
Definition wrap (z : Z) : int := (z - minInt) mod 2 ^ 64 + minInt.
Definition add (a b : int) : int := wrap (a + b).
Definition sub (a b : int) : int := wrap (a - b).
Definition mul (a b : int) : int := wrap (a * b).
(** [a / b] truncates toward zero; the divisor is never zero where the
    service divides (see [services.Search]). *)
Definition quo (a b : int) : int := wrap (Z.quot a b).

Definition float64 := PrimFloat.float.

(** An [error] value is its message; [nil] is [None]. *)
Definition error := string.

(** A Go result pair [(value, err)]: exactly one side is meaningful. *)
Inductive result (A : Type) : Type :=
| Ok (a : A)
| Err (e : error).
Arguments Ok {A} a.
Arguments Err {A} e.

(** [fmt.Errorf("<prefix>%w", err)] and [fmt.Errorf("<prefix>%s", s)]. *)
Definition Errorf (prefix : string) (arg : string) : error := prefix ++ arg.

(** [%d] of an int ([strconv.Itoa]). *)
Definition Itoa (z : int) : string := NilZero.string_of_int (Z.to_int z).

(** [time.Duration] in nanoseconds. *)
Definition Second : Z := 1000000000.
Definition Minute : Z := 60 * Second.

(** [strings.ReplaceAll s old new]: the non-overlapping occurrences of
    [old], left to right.  [skip] counts the bytes of a match still to be
    dropped.  An empty [old] matches before every byte and at the end. *)
Fixpoint replaceFrom (old new s : string) (skip : nat) : string :=
  match s with
  | EmptyString => EmptyString
  | String c s' =>
      match skip with
      | S k => replaceFrom old new s' k
      | O =>
          if String.prefix old s
          then new ++ replaceFrom old new s' (String.length old - 1)
          else String c (replaceFrom old new s' 0)
      end
  end.

Fixpoint interleave (new s : string) : string :=
  match s with
  | EmptyString => new
  | String c s' => new ++ String c (interleave new s')
  end.

Definition ReplaceAll (s old new : string) : string :=
  match old with
  | EmptyString => interleave new s
  | _ => replaceFrom old new s 0
  end.

(** [strings.TrimSuffix]. *)
Fixpoint TrimSuffix (s suffix : string) : string :=
  match s with
  | EmptyString => EmptyString
  | String c s' =>
      if String.eqb s suffix then EmptyString else String c (TrimSuffix s' suffix)
  end.

(** [strings.Join]. *)
Definition Join (parts : list string) (sep : string) : string :=
  String.concat sep parts.

End golang.

(** ** Package [domain] (properties-api): the listing.

    The struct's declaration lies outside the search service's sources;
    its fields are those the search service reads and writes
    ([mapDocToProperty], [validateProperty]). *)
Module domain.

Record Property := {
  ID : string;
  Title : string;
  Description : string;
  City : string;
  Country : string;
  PricePerNight : golang.float64;
  Bedrooms : golang.int;
  Bathrooms : golang.int;
  MaxGuests : golang.int;
  Images : list string;
  OwnerID : Z;
  Available : bool;
  CreatedAt : string
}.

End domain.

(** ** Package [dto] *)
Module dto.

Record SearchRequest := {
  Query : string;
  City : string;
  Country : string;
  MinPrice : golang.float64;
  MaxPrice : golang.float64;
  Bedrooms : golang.int;
  Bathrooms : golang.int;
  MinGuests : golang.int;
  Page : golang.int;
  PageSize : golang.int;
  SortBy : string;
  SortOrder : string
}.

(** Field updates, for the assignments through a request pointer. *)
Definition withPage (v : golang.int) (r : SearchRequest) : SearchRequest :=
  {| Query := Query r; City := City r; Country := Country r;
     MinPrice := MinPrice r; MaxPrice := MaxPrice r; Bedrooms := Bedrooms r;
     Bathrooms := Bathrooms r; MinGuests := MinGuests r; Page := v;
     PageSize := PageSize r; SortBy := SortBy r; SortOrder := SortOrder r |}.

Definition withPageSize (v : golang.int) (r : SearchRequest) : SearchRequest :=
  {| Query := Query r; City := City r; Country := Country r;
     MinPrice := MinPrice r; MaxPrice := MaxPrice r; Bedrooms := Bedrooms r;
     Bathrooms := Bathrooms r; MinGuests := MinGuests r; Page := Page r;
     PageSize := v; SortBy := SortBy r; SortOrder := SortOrder r |}.

Definition withSortBy (v : string) (r : SearchRequest) : SearchRequest :=
  {| Query := Query r; City := City r; Country := Country r;
     MinPrice := MinPrice r; MaxPrice := MaxPrice r; Bedrooms := Bedrooms r;
     Bathrooms := Bathrooms r; MinGuests := MinGuests r; Page := Page r;
     PageSize := PageSize r; SortBy := v; SortOrder := SortOrder r |}.

Definition withSortOrder (v : string) (r : SearchRequest) : SearchRequest :=
  {| Query := Query r; City := City r; Country := Country r;
     MinPrice := MinPrice r; MaxPrice := MaxPrice r; Bedrooms := Bedrooms r;
     Bathrooms := Bathrooms r; MinGuests := MinGuests r; Page := Page r;
     PageSize := PageSize r; SortBy := SortBy r; SortOrder := v |}.

Definition withPrices (lo hi : golang.float64) (r : SearchRequest) : SearchRequest :=
  {| Query := Query r; City := City r; Country := Country r;
     MinPrice := lo; MaxPrice := hi; Bedrooms := Bedrooms r;
     Bathrooms := Bathrooms r; MinGuests := MinGuests r; Page := Page r;
     PageSize := PageSize r; SortBy := SortBy r; SortOrder := SortOrder r |}.

Definition withQuery (v : string) (r : SearchRequest) : SearchRequest :=
  {| Query := v; City := City r; Country := Country r;
     MinPrice := MinPrice r; MaxPrice := MaxPrice r; Bedrooms := Bedrooms r;
     Bathrooms := Bathrooms r; MinGuests := MinGuests r; Page := Page r;
     PageSize := PageSize r; SortBy := SortBy r; SortOrder := SortOrder r |}.

(** The zero value of the struct: what [parseSearchRequest] builds from
    an empty query string. *)
Definition zero : SearchRequest :=
  {| Query := ""; City := ""; Country := ""; MinPrice := 0%float;
     MaxPrice := 0%float; Bedrooms := 0; Bathrooms := 0; MinGuests := 0;
     Page := 0; PageSize := 0; SortBy := ""; SortOrder := "" |}.

Record SearchResponse := {
  Results : list domain.Property;
  TotalResults : golang.int;
  RespPage : golang.int;
  RespPageSize : golang.int;
  TotalPages : golang.int
}.

End dto.

(** ** External libraries

    What the service calls but does not define: the HTTP client,
    [url.Values], the memcached client, [ccache], and the pure functions
    of [fmt], [crypto/md5], [net/url] and [encoding/json].  Bodies are
    byte strings. *)
Module http.

Import golang.

Record Request := {
  Method : string;
  URL : string;
  Body : option string;
  Header : list (string * string)
}.

(** [req.Header.Set]. *)
Definition Header_Set (req : Request) (k v : string) : Request :=
  {| Method := Method req; URL := URL req; Body := Body req;
     Header := (k, v) :: List.filter (fun kv => negb (String.eqb (fst kv) k)) (Header req) |}.

(** A response: its status and what [io.ReadAll] of its body yields. *)
Record Response := {
  StatusCode : int;
  RespBody : string;
  ReadErr : option error
}.

Definition StatusOK : int := 200.

Definition ReadAll (resp : Response) : string * option error :=
  (RespBody resp, ReadErr resp).

(** [Do] of the HTTP client against a collaborator whose state is [H]; a
    deadline that expires surfaces as a transport error. *)
Class Client (H : Type) := {
  Do : Request -> H -> H * result Response
}.

End http.

Module url.

(** [url.Values]: [map[string][]string]. *)
Definition Values := gmap string (list string).

Definition Set_ (v : Values) (key value : string) : Values :=
  <[key := [value]]> v.

Definition Add (v : Values) (key value : string) : Values :=
  <[key := (default [] (v !! key) ++ [value])%list]> v.

End url.

(** JSON values as [encoding/json] decodes them into [interface{}]. *)
#[warnings="-register-all"]
Inductive JSON : Type :=
| JNull
| JBool (b : bool)
| JNumber (f : golang.float64)
| JString (s : string)
| JArray (items : list JSON)
| JObject (fields : list (string * JSON)).

Module memcache.

Import golang.

Record Item := {
  Key : string;
  Value : string;
  Expiration : Z
}.

(** The client's errors: the sentinel [ErrCacheMiss] and any other. *)
Inductive Error :=
| ErrCacheMiss
| ErrOther (msg : string).

Inductive GetResult :=
| GetItem (it : Item)
| GetErr (err : Error).

(** The memcached client against a server whose state is [M]. *)
Class Client (M : Type) := {
  Get : string -> M -> M * GetResult;
  Set_ : Item -> M -> M * option Error;
  Delete : string -> M -> M * option Error
}.

End memcache.

(** [ccache]: the in-process cache.  [Get] may return an expired item;
    the caller asks [Expired].  The size bound (1000 items) is enforced
    by a background worker that only ever removes items; it is not
    modelled, so a state here is the cache as a call finds it. *)
Module ccache.

Record Item (V : Type) := {
  Value : V;
  expires : Z
}.
Arguments Value {V} _.
Arguments expires {V} _.

Definition Expired {V} (i : Item V) (now : Z) : bool := expires i <? now.

Definition Get {V} (c : gmap string (Item V)) (key : string) : option (Item V) :=
  c !! key.

Definition Set_ {V} (c : gmap string (Item V)) (key : string) (value : V)
    (duration now : Z) : gmap string (Item V) :=
  <[key := {| Value := value; expires := now + duration |}]> c.

Definition Delete {V} (c : gmap string (Item V)) (key : string) : gmap string (Item V) :=
  delete key c.

End ccache.

(** The pure library functions, each at the types the service uses it
    at.  They are parameters: a property proved for every [Platform]
    holds for the real ones. *)
Class Platform := {
  (** [fmt.Sprintf] with the verbs [%f] and [%.2f]. *)
  Sprintf_f : golang.float64 -> string;
  Sprintf_2f : golang.float64 -> string;
  (** [fmt.Sprintf("%x", md5.Sum(s))]. *)
  md5_hex : string -> string;
  (** [url.Values.Encode]. *)
  Values_Encode : url.Values -> string;
  (** [http.NewRequest] / [http.NewRequestWithContext]. *)
  NewRequest : string -> string -> option string -> golang.result http.Request;
  (** [json.Marshal] and [json.Unmarshal]. *)
  Marshal_Property : domain.Property -> golang.result string;
  Unmarshal_Property : string -> golang.result domain.Property;
  Marshal_cacheData : list domain.Property * golang.int -> golang.result string;
  Unmarshal_cacheData : string -> golang.result (list domain.Property * golang.int);
  Marshal_deleteCmd : string -> golang.result string;
  Marshal_commitCmd : golang.result string;
  Unmarshal_solrSearchResponse : string -> golang.result (golang.int * list (gmap string JSON));
  Unmarshal_solrUpdateResponse : string -> golang.result golang.int;
  Unmarshal_PropertyMessage : string -> golang.result (string * string);
  (** The conversions [int(f)] and [uint(f)], and [time.Parse(time.RFC3339, s)]. *)
  float64_to_int : golang.float64 -> golang.int;
  float64_to_uint : golang.float64 -> Z;
  time_Parse_RFC3339 : string -> golang.result string
}.

(** ** Package [repositories] *)
Module repositories.

Import golang.

(** The interface [CacheRepository]; [C] is the state behind it. *)
Module CacheRepository.
Class t (C : Type) := {
  Get : string -> C -> C * (list domain.Property * int * bool);
  Set_ : string -> list domain.Property -> int -> Z -> C -> C;
  Delete : string -> C -> C
}.
End CacheRepository.

(** The interface [SolrRepository]; [S] is the state behind it. *)
Module SolrRepository.
Class t (S : Type) := {
  Search : dto.SearchRequest -> S -> S * (list domain.Property * int * option error);
  IndexProperty : domain.Property -> S -> S * option error;
  UpdateProperty : domain.Property -> S -> S * option error;
  DeleteProperty : string -> S -> S * option error
}.
End SolrRepository.

Record cacheData := {
  Properties : list domain.Property;
  Total : int
}.

(** *** The two-tier cache *)
Module cacheRepository.
Section WithClient.
Context {platform : Platform} {M : Type} {client : memcache.Client M}.

(** A call made on the memcached client. *)
Inductive Call :=
| CallGet (key : string)
| CallSet (key : string)
| CallDelete (key : string).

(** The struct, with the clock [ccache] reads and a record of the calls
    made on the memcached client. *)
Record t := {
  localCache : gmap string (ccache.Item cacheData);
  memcachedClient : M;
  now : Z;
  calls : list Call
}.

Definition withLocal (c : gmap string (ccache.Item cacheData)) (r : t) : t :=
  {| localCache := c; memcachedClient := memcachedClient r; now := now r;
     calls := calls r |}.

Definition called (c : Call) (m : M) (r : t) : t :=
  {| localCache := localCache r; memcachedClient := m; now := now r;
     calls := (calls r ++ [c])%list |}.

(** Steps 2 to 4 of [Get]: the lookup in memcached. *)
Definition getMemcached (key : string) (r : t)
    : t * (list domain.Property * int * bool) :=
  let '(m, res) := memcache.Get key (memcachedClient r) in
  let r := called (CallGet key) m r in
  match res with
  | memcache.GetErr memcache.ErrCacheMiss => (r, ([], 0, false))
  | memcache.GetErr _ => (r, ([], 0, false))
  | memcache.GetItem memcachedItem =>
      match Unmarshal_cacheData (memcache.Value memcachedItem) with
      | Err _ => (r, ([], 0, false))
      | Ok (properties, total) =>
          let data := {| Properties := properties; Total := total |} in
          let r := withLocal (ccache.Set_ (localCache r) key data (5 * Minute) (now r)) r in
          (r, (Properties data, Total data, true))
      end
  end.

Definition Get (key : string) (r : t) : t * (list domain.Property * int * bool) :=
  match ccache.Get (localCache r) key with
  | Some item =>
      if negb (ccache.Expired item (now r))
      then let data := ccache.Value item in (r, (Properties data, Total data, true))
      else getMemcached key r
  | None => getMemcached key r
  end.

Definition Set_ (key : string) (properties : list domain.Property) (total : int)
    (ttl : Z) (r : t) : t :=
  let data := {| Properties := properties; Total := total |} in
  let r := withLocal (ccache.Set_ (localCache r) key data (5 * Minute) (now r)) r in
  match Marshal_cacheData (properties, total) with
  | Err _ => r
  | Ok jsonData =>
      let memcachedTTL := 15 * 60 in
      let memcachedItem :=
        {| memcache.Key := key; memcache.Value := jsonData;
           memcache.Expiration := memcachedTTL |} in
      let '(m, _) := memcache.Set_ memcachedItem (memcachedClient r) in
      called (CallSet key) m r
  end.

Definition Delete (key : string) (r : t) : t :=
  let r := withLocal (ccache.Delete (localCache r) key) r in
  let '(m, _) := memcache.Delete key (memcachedClient r) in
  called (CallDelete key) m r.

#[global] Instance implements : CacheRepository.t t := {
  CacheRepository.Get := Get;
  CacheRepository.Set_ := Set_;
  CacheRepository.Delete := Delete
}.

End WithClient.
Arguments t M : clear implicits.
End cacheRepository.

(** *** The query translator *)

(** The backslash and the double quote. *)
Definition backslash : ascii := "\"%char.
Definition dquote : ascii := "034"%char.

(** [escapeSolrQuery]: one [strings.ReplaceAll] per special character. *)
Definition escapeSolrQuery (query : string) : string :=
  let esc (c : string) := String backslash c in
  let query := ReplaceAll query (String backslash "") (esc (String backslash "")) in
  let query := ReplaceAll query "+" (esc "+") in
  let query := ReplaceAll query "-" (esc "-") in
  let query := ReplaceAll query "&" (esc "&") in
  let query := ReplaceAll query "|" (esc "|") in
  let query := ReplaceAll query "!" (esc "!") in
  let query := ReplaceAll query "(" (esc "(") in
  let query := ReplaceAll query ")" (esc ")") in
  let query := ReplaceAll query "{" (esc "{") in
  let query := ReplaceAll query "}" (esc "}") in
  let query := ReplaceAll query "[" (esc "[") in
  let query := ReplaceAll query "]" (esc "]") in
  let query := ReplaceAll query "^" (esc "^") in
  let query := ReplaceAll query (String dquote "") (esc (String dquote "")) in
  let query := ReplaceAll query "~" (esc "~") in
  let query := ReplaceAll query "*" (esc "*") in
  let query := ReplaceAll query "?" (esc "?") in
  let query := ReplaceAll query ":" (esc ":") in
  query.

Module solrRepository.
Section WithClient.
Context {platform : Platform} {H : Type} {client : http.Client H}.

Record t := {
  solrURL : string;
  httpClient : H
}.

Definition withClient (h : H) (r : t) : t :=
  {| solrURL := solrURL r; httpClient := h |}.

(** The [q] parameter: the free text against title, city and country. *)
Definition queryParam (request : dto.SearchRequest) : string :=
  let queryParts :=
    if negb (String.eqb (dto.Query request) "")
    then ["(title:*" ++ escapeSolrQuery (dto.Query request)
          ++ "* OR city:*" ++ escapeSolrQuery (dto.Query request)
          ++ "* OR country:*" ++ escapeSolrQuery (dto.Query request) ++ "*)"]
    else [] in
  match queryParts with
  | [] => "*:*"
  | _ => Join queryParts " AND "
  end.

(** The [fq] filters, in the order they are appended. *)
Definition filters (request : dto.SearchRequest) : list string :=
  let filters : list string := [] in
  let filters :=
    if PrimFloat.ltb 0 (dto.MinPrice request) || PrimFloat.ltb 0 (dto.MaxPrice request)
    then
      let minPrice := dto.MinPrice request in
      let minPrice := if PrimFloat.eqb minPrice 0 then 0%float else minPrice in
      let maxPrice := dto.MaxPrice request in
      let maxPrice := if PrimFloat.eqb maxPrice 0 then 999999%float else maxPrice in
      app filters
        ["price_per_night:[" ++ Sprintf_f minPrice ++ " TO " ++ Sprintf_f maxPrice ++ "]"]
    else filters in
  let filters :=
    if dto.Bedrooms request >? 0
    then app filters ["bedrooms:" ++ Itoa (dto.Bedrooms request)] else filters in
  let filters :=
    if dto.Bathrooms request >? 0
    then app filters ["bathrooms:" ++ Itoa (dto.Bathrooms request)] else filters in
  let filters :=
    if dto.MinGuests request >? 0
    then app filters ["max_guests:[" ++ Itoa (dto.MinGuests request) ++ " TO *]"]
    else filters in
  let filters :=
    if negb (String.eqb (dto.City request) "")
    then app filters ["city:" ++ String dquote (escapeSolrQuery (dto.City request))
                      ++ String dquote ""]
    else filters in
  let filters :=
    if negb (String.eqb (dto.Country request) "")
    then app filters ["country:" ++ String dquote (escapeSolrQuery (dto.Country request))
                      ++ String dquote ""]
    else filters in
  filters.

(** The parameters of the select request. *)
Definition searchParams (request : dto.SearchRequest) : url.Values :=
  let params : url.Values := ∅ in
  let params := url.Set_ params "q" (queryParam request) in
  let params := fold_left (fun ps f => url.Add ps "fq" f) (filters request) params in
  let page := dto.Page request in
  let page := if page <? 1 then 1 else page in
  let pageSize := dto.PageSize request in
  let pageSize := if pageSize <? 1 then 10 else pageSize in
  let start := mul (sub page 1) pageSize in
  let params := url.Set_ params "start" (Itoa start) in
  let params := url.Set_ params "rows" (Itoa pageSize) in
  let sortBy := dto.SortBy request in
  let sortBy := if String.eqb sortBy "" then "price_per_night" else sortBy in
  let sortOrder := dto.SortOrder request in
  let sortOrder := if String.eqb sortOrder "" then "asc" else sortOrder in
  let params := url.Set_ params "sort" (sortBy ++ " " ++ sortOrder) in
  let params := url.Set_ params "wt" "json" in
  params.

(** [v.(string)], [v.(float64)], [v.(bool)], [v.([]interface{})] on an
    optional map entry. *)
Definition asString (v : option JSON) : option string :=
  match v with Some (JString s) => Some s | _ => None end.
Definition asNumber (v : option JSON) : option float64 :=
  match v with Some (JNumber f) => Some f | _ => None end.
Definition asBool (v : option JSON) : option bool :=
  match v with Some (JBool b) => Some b | _ => None end.
Definition asArray (v : option JSON) : option (list JSON) :=
  match v with Some (JArray l) => Some l | _ => None end.

Definition mapDocToProperty (doc : gmap string JSON) : domain.Property :=
  {| domain.ID := default "" (asString (doc !! "id"));
     domain.Title := default "" (asString (doc !! "title"));
     domain.Description := default "" (asString (doc !! "description"));
     domain.City := default "" (asString (doc !! "city"));
     domain.Country := default "" (asString (doc !! "country"));
     domain.PricePerNight := default 0%float (asNumber (doc !! "price_per_night"));
     domain.Bedrooms := default 0 (float64_to_int <$> asNumber (doc !! "bedrooms"));
     domain.Bathrooms := default 0 (float64_to_int <$> asNumber (doc !! "bathrooms"));
     domain.MaxGuests := default 0 (float64_to_int <$> asNumber (doc !! "max_guests"));
     domain.Images :=
       match asArray (doc !! "images") with
       | Some images => omap (fun img => asString (Some img)) images
       | None => []
       end;
     domain.OwnerID := default 0 (float64_to_uint <$> asNumber (doc !! "owner_id"));
     domain.Available := default false (asBool (doc !! "available"));
     domain.CreatedAt :=
       match asString (doc !! "created_at") with
       | Some createdAt =>
           match time_Parse_RFC3339 createdAt with
           | Ok t => t
           | Err _ => ""
           end
       | None => ""
       end |}.

Definition Search (request : dto.SearchRequest) (r : t)
    : t * (list domain.Property * int * option error) :=
  let baseURL := TrimSuffix (solrURL r) "/" in
  let searchURL := baseURL ++ "/select" in
  let params := searchParams request in
  let fullURL := searchURL ++ "?" ++ Values_Encode params in
  match NewRequest "GET" fullURL None with
  | Err err => (r, ([], 0, Some (Errorf "error creating request: " err)))
  | Ok req =>
      let '(h, res) := http.Do req (httpClient r) in
      let r := withClient h r in
      match res with
      | Err err => (r, ([], 0, Some (Errorf "error executing request: " err)))
      | Ok resp =>
          if negb (http.StatusCode resp =? http.StatusOK)
          then
            let '(body, _) := http.ReadAll resp in
            (r, ([], 0, Some ("solr returned status " ++ Itoa (http.StatusCode resp)
                              ++ ": " ++ body)))
          else
            match http.ReadAll resp with
            | (_, Some err) => (r, ([], 0, Some (Errorf "error reading response: " err)))
            | (body, None) =>
                match Unmarshal_solrSearchResponse body with
                | Err err => (r, ([], 0, Some (Errorf "error parsing response: " err)))
                | Ok (numFound, docs) => (r, (map mapDocToProperty docs, numFound, None))
                end
            end
      end
  end.

Definition commit (r : t) : t * option error :=
  let baseURL := TrimSuffix (solrURL r) "/" in
  let updateURL := baseURL ++ "/update" in
  match Marshal_commitCmd with
  | Err err => (r, Some (Errorf "error marshaling commit command: " err))
  | Ok commitJSON =>
      match NewRequest "POST" updateURL (Some commitJSON) with
      | Err err => (r, Some (Errorf "error creating commit request: " err))
      | Ok req =>
          let req := http.Header_Set req "Content-Type" "application/json" in
          let '(h, res) := http.Do req (httpClient r) in
          let r := withClient h r in
          match res with
          | Err err => (r, Some (Errorf "error executing commit: " err))
          | Ok resp =>
              if negb (http.StatusCode resp =? http.StatusOK)
              then
                let '(body, _) := http.ReadAll resp in
                (r, Some ("solr commit returned status " ++ Itoa (http.StatusCode resp)
                          ++ ": " ++ body))
              else (r, None)
          end
      end
  end.

Definition IndexProperty (property : domain.Property) (r : t) : t * option error :=
  let baseURL := TrimSuffix (solrURL r) "/" in
  let updateURL := baseURL ++ "/update/json/docs" in
  match Marshal_Property property with
  | Err err => (r, Some (Errorf "error marshaling property: " err))
  | Ok propertyJSON =>
      match NewRequest "POST" updateURL (Some propertyJSON) with
      | Err err => (r, Some (Errorf "error creating request: " err))
      | Ok req =>
          let req := http.Header_Set req "Content-Type" "application/json" in
          let '(h, res) := http.Do req (httpClient r) in
          let r := withClient h r in
          match res with
          | Err err => (r, Some (Errorf "error executing request: " err))
          | Ok resp =>
              if negb (http.StatusCode resp =? http.StatusOK)
              then
                let '(body, _) := http.ReadAll resp in
                (r, Some ("solr returned status " ++ Itoa (http.StatusCode resp)
                          ++ ": " ++ body))
              else
                match http.ReadAll resp with
                | (_, Some err) => (r, Some (Errorf "error reading response: " err))
                | (body, None) =>
                    match Unmarshal_solrUpdateResponse body with
                    | Err err => (r, Some (Errorf "error parsing response: " err))
                    | Ok status =>
                        if negb (status =? 0)
                        then (r, Some ("solr update failed with status " ++ Itoa status))
                        else commit r
                    end
                end
          end
      end
  end.

Definition UpdateProperty (property : domain.Property) (r : t) : t * option error :=
  IndexProperty property r.

Definition DeleteProperty (propertyID : string) (r : t) : t * option error :=
  let baseURL := TrimSuffix (solrURL r) "/" in
  let updateURL := baseURL ++ "/update" in
  match Marshal_deleteCmd propertyID with
  | Err err => (r, Some (Errorf "error marshaling delete command: " err))
  | Ok deleteJSON =>
      match NewRequest "POST" updateURL (Some deleteJSON) with
      | Err err => (r, Some (Errorf "error creating request: " err))
      | Ok req =>
          let req := http.Header_Set req "Content-Type" "application/json" in
          let '(h, res) := http.Do req (httpClient r) in
          let r := withClient h r in
          match res with
          | Err err => (r, Some (Errorf "error executing request: " err))
          | Ok resp =>
              if negb (http.StatusCode resp =? http.StatusOK)
              then
                let '(body, _) := http.ReadAll resp in
                (r, Some ("solr returned status " ++ Itoa (http.StatusCode resp)
                          ++ ": " ++ body))
              else
                match http.ReadAll resp with
                | (_, Some err) => (r, Some (Errorf "error reading response: " err))
                | (body, None) =>
                    match Unmarshal_solrUpdateResponse body with
                    | Err err => (r, Some (Errorf "error parsing response: " err))
                    | Ok status =>
                        if negb (status =? 0)
                        then (r, Some ("solr delete failed with status " ++ Itoa status))
                        else commit r
                    end
                end
          end
      end
  end.

#[global] Instance implements : SolrRepository.t t := {
  SolrRepository.Search := Search;
  SolrRepository.IndexProperty := IndexProperty;
  SolrRepository.UpdateProperty := UpdateProperty;
  SolrRepository.DeleteProperty := DeleteProperty
}.

End WithClient.
Arguments t H : clear implicits.
End solrRepository.

End repositories.

(** ** Package [services] *)
Module services.

Import golang.

(** The interface [SearchService]; [W] is the state behind it.  A
    method returning a pointer and an error returns one or the other. *)
Module SearchService.
Class t (W : Type) := {
  Search : dto.SearchRequest -> W -> W * result dto.SearchResponse;
  IndexProperty : domain.Property -> W -> W * option error;
  UpdateProperty : domain.Property -> W -> W * option error;
  DeleteProperty : string -> W -> W * option error;
  FetchPropertyFromAPI : string -> W -> W * result domain.Property
}.
End SearchService.

Module searchService.
Section WithCollaborators.
Context {platform : Platform} {S C A : Type}
  {solr : repositories.SolrRepository.t S}
  {cache : repositories.CacheRepository.t C}
  {client : http.Client A}.

Record t := {
  solrRepo : S;
  cacheRepo : C;
  propertiesAPIURL : string;
  httpClient : A
}.

Definition withSolr (x : S) (s : t) : t :=
  {| solrRepo := x; cacheRepo := cacheRepo s;
     propertiesAPIURL := propertiesAPIURL s; httpClient := httpClient s |}.
Definition withCache (x : C) (s : t) : t :=
  {| solrRepo := solrRepo s; cacheRepo := x;
     propertiesAPIURL := propertiesAPIURL s; httpClient := httpClient s |}.
Definition withClient (x : A) (s : t) : t :=
  {| solrRepo := solrRepo s; cacheRepo := cacheRepo s;
     propertiesAPIURL := propertiesAPIURL s; httpClient := x |}.

Definition generateCacheKey (request : dto.SearchRequest) : string :=
  let keyParts :=
    [ "query:" ++ dto.Query request;
      "city:" ++ dto.City request;
      "country:" ++ dto.Country request;
      "min_price:" ++ Sprintf_2f (dto.MinPrice request);
      "max_price:" ++ Sprintf_2f (dto.MaxPrice request);
      "bedrooms:" ++ Itoa (dto.Bedrooms request);
      "bathrooms:" ++ Itoa (dto.Bathrooms request);
      "min_guests:" ++ Itoa (dto.MinGuests request);
      "page:" ++ Itoa (dto.Page request);
      "page_size:" ++ Itoa (dto.PageSize request);
      "sort_by:" ++ dto.SortBy request;
      "sort_order:" ++ dto.SortOrder request ] in
  let keyString := Join keyParts "|" in
  "search:" ++ md5_hex keyString.

(** The request is passed by pointer: the defaults written here are
    seen by the caller, also when an error is returned. *)
Definition validateSearchRequest (request : dto.SearchRequest)
    : dto.SearchRequest * option error :=
  let request := if dto.Page request <? 1 then dto.withPage 1 request else request in
  let request := if dto.PageSize request <? 1 then dto.withPageSize 10 request else request in
  let request := if String.eqb (dto.SortBy request) ""
                 then dto.withSortBy "price_per_night" request else request in
  let request := if String.eqb (dto.SortOrder request) ""
                 then dto.withSortOrder "asc" request else request in
  if negb (String.eqb (dto.SortOrder request) "asc")
     && negb (String.eqb (dto.SortOrder request) "desc")
  then (request, Some "invalid sort_order: must be 'asc' or 'desc'")
  else if PrimFloat.ltb (dto.MinPrice request) 0
  then (request, Some "min_price cannot be negative")
  else if PrimFloat.ltb (dto.MaxPrice request) 0
  then (request, Some "max_price cannot be negative")
  else if PrimFloat.ltb 0 (dto.MinPrice request)
          && PrimFloat.ltb 0 (dto.MaxPrice request)
          && PrimFloat.ltb (dto.MaxPrice request) (dto.MinPrice request)
  then (request, Some "min_price cannot be greater than max_price")
  else if dto.Bedrooms request <? 0 then (request, Some "bedrooms cannot be negative")
  else if dto.Bathrooms request <? 0 then (request, Some "bathrooms cannot be negative")
  else if dto.MinGuests request <? 0 then (request, Some "min_guests cannot be negative")
  else (request, None).

Definition validateProperty (property : domain.Property) : option error :=
  if String.eqb (domain.ID property) "" then Some "property ID cannot be empty"
  else if String.eqb (domain.Title property) "" then Some "property title cannot be empty"
  else if String.eqb (domain.City property) "" then Some "property city cannot be empty"
  else if String.eqb (domain.Country property) ""
  then Some "property country cannot be empty"
  else if PrimFloat.ltb (domain.PricePerNight property) 0
  then Some "property price_per_night cannot be negative"
  else if domain.Bedrooms property <? 0 then Some "property bedrooms cannot be negative"
  else if domain.Bathrooms property <? 0 then Some "property bathrooms cannot be negative"
  else if domain.MaxGuests property <? 0 then Some "property max_guests cannot be negative"
  else None.

(** The body only writes a log line: no key is removed from either
    cache tier. *)
Definition invalidateCache (s : t) : t := s.

Definition Search (request : dto.SearchRequest) (s : t)
    : t * result dto.SearchResponse :=
  let '(request, err) := validateSearchRequest request in
  match err with
  | Some err => (s, Err (Errorf "invalid request: " err))
  | None =>
      let cacheKey := generateCacheKey request in
      let '(c, (properties, total, found)) :=
        repositories.CacheRepository.Get cacheKey (cacheRepo s) in
      let s := withCache c s in
      if found
      then
        let pageSize := dto.PageSize request in
        let totalPages := quo (sub (add total pageSize) 1) pageSize in
        (s, Ok {| dto.Results := properties; dto.TotalResults := total;
                  dto.RespPage := dto.Page request; dto.RespPageSize := pageSize;
                  dto.TotalPages := totalPages |})
      else
        let '(e, (properties, total, err)) :=
          repositories.SolrRepository.Search request (solrRepo s) in
        let s := withSolr e s in
        match err with
        | Some err => (s, Err (Errorf "error searching in Solr: " err))
        | None =>
            let s := withCache (repositories.CacheRepository.Set_ cacheKey properties total
                                  (10 * Minute) (cacheRepo s)) s in
            let pageSize := dto.PageSize request in
            let totalPages := quo (sub (add total pageSize) 1) pageSize in
            (s, Ok {| dto.Results := properties; dto.TotalResults := total;
                      dto.RespPage := dto.Page request; dto.RespPageSize := pageSize;
                      dto.TotalPages := totalPages |})
        end
  end.

Definition IndexProperty (property : domain.Property) (s : t) : t * option error :=
  match validateProperty property with
  | Some err => (s, Some (Errorf "invalid property: " err))
  | None =>
      let '(e, err) := repositories.SolrRepository.IndexProperty property (solrRepo s) in
      let s := withSolr e s in
      match err with
      | Some err => (s, Some (Errorf "error indexing property in Solr: " err))
      | None =>
          let s := invalidateCache s in
          (s, None)
      end
  end.

Definition UpdateProperty (property : domain.Property) (s : t) : t * option error :=
  match validateProperty property with
  | Some err => (s, Some (Errorf "invalid property: " err))
  | None =>
      let '(e, err) := repositories.SolrRepository.UpdateProperty property (solrRepo s) in
      let s := withSolr e s in
      match err with
      | Some err => (s, Some (Errorf "error updating property in Solr: " err))
      | None =>
          let s := invalidateCache s in
          (s, None)
      end
  end.

Definition DeleteProperty (propertyID : string) (s : t) : t * option error :=
  if String.eqb propertyID "" then (s, Some "property ID cannot be empty")
  else
    let '(e, err) := repositories.SolrRepository.DeleteProperty propertyID (solrRepo s) in
    let s := withSolr e s in
    match err with
    | Some err => (s, Some (Errorf "error deleting property from Solr: " err))
    | None =>
        let s := invalidateCache s in
        (s, None)
    end.

Definition FetchPropertyFromAPI (propertyID : string) (s : t)
    : t * result domain.Property :=
  if String.eqb propertyID "" then (s, Err "property ID cannot be empty")
  else
    let url := propertiesAPIURL s ++ "/properties/" ++ propertyID in
    match NewRequest "GET" url None with
    | Err err => (s, Err (Errorf "error creating request: " err))
    | Ok req =>
        let req := http.Header_Set req "Content-Type" "application/json" in
        let '(a, res) := http.Do req (httpClient s) in
        let s := withClient a s in
        match res with
        | Err err => (s, Err (Errorf "error executing request: " err))
        | Ok resp =>
            if negb (http.StatusCode resp =? http.StatusOK)
            then
              let '(body, _) := http.ReadAll resp in
              (s, Err ("properties API returned status "
                       ++ Itoa (http.StatusCode resp) ++ ": " ++ body))
            else
              match http.ReadAll resp with
              | (_, Some err) => (s, Err (Errorf "error reading response: " err))
              | (body, None) =>
                  match Unmarshal_Property body with
                  | Err err => (s, Err (Errorf "error parsing response: " err))
                  | Ok property => (s, Ok property)
                  end
              end
        end
    end.

#[global] Instance implements : SearchService.t t := {
  SearchService.Search := Search;
  SearchService.IndexProperty := IndexProperty;
  SearchService.UpdateProperty := UpdateProperty;
  SearchService.DeleteProperty := DeleteProperty;
  SearchService.FetchPropertyFromAPI := FetchPropertyFromAPI
}.

End WithCollaborators.
Arguments t S C A : clear implicits.
End searchService.

End services.

(** ** Package [consumers] *)
Module amqp.

(** What a consumer answers a delivery with. *)
Inductive Disposition :=
| Ack (multiple : bool)
| Nack (multiple requeue : bool).

Record Delivery := {
  Body : string
}.

End amqp.

Module consumers.

Import golang.

Record PropertyMessage := {
  Action : string;
  PropertyID : string
}.

Module RabbitMQConsumer.
Section WithService.
Context {platform : Platform} {W : Type} {svc : services.SearchService.t W}.

(** The struct; [channel] records the dispositions sent on the AMQP
    channel, oldest first. *)
Record t := {
  channel : list amqp.Disposition;
  queueName : string;
  service : W
}.

Definition withService (w : W) (c : t) : t :=
  {| channel := channel c; queueName := queueName c; service := w |}.

(** [msg.Ack] and [msg.Nack]; a failure of either is at most logged. *)
Definition send (d : amqp.Disposition) (c : t) : t :=
  {| channel := (channel c ++ [d])%list; queueName := queueName c; service := service c |}.

Definition handleCreate (propertyID : string) (c : t) : t * option error :=
  let '(w, fetched) := services.SearchService.FetchPropertyFromAPI propertyID (service c) in
  let c := withService w c in
  match fetched with
  | Err err => (c, Some (Errorf "failed to fetch property from API: " err))
  | Ok property =>
      let '(w, err) := services.SearchService.IndexProperty property (service c) in
      let c := withService w c in
      match err with
      | Some err => (c, Some (Errorf "failed to index property: " err))
      | None => (c, None)
      end
  end.

Definition handleUpdate (propertyID : string) (c : t) : t * option error :=
  let '(w, fetched) := services.SearchService.FetchPropertyFromAPI propertyID (service c) in
  let c := withService w c in
  match fetched with
  | Err err => (c, Some (Errorf "failed to fetch property from API: " err))
  | Ok property =>
      let '(w, err) := services.SearchService.UpdateProperty property (service c) in
      let c := withService w c in
      match err with
      | Some err => (c, Some (Errorf "failed to update property: " err))
      | None => (c, None)
      end
  end.

Definition handleDelete (propertyID : string) (c : t) : t * option error :=
  let '(w, err) := services.SearchService.DeleteProperty propertyID (service c) in
  let c := withService w c in
  match err with
  | Some err => (c, Some (Errorf "failed to delete property: " err))
  | None => (c, None)
  end.

Definition processMessage (msg : amqp.Delivery) (c : t) : t :=
  match Unmarshal_PropertyMessage (amqp.Body msg) with
  | Err _ => send (amqp.Nack false false) c
  | Ok (action, propertyID) =>
      let propertyMsg := {| Action := action; PropertyID := propertyID |} in
      if String.eqb (PropertyID propertyMsg) "" then send (amqp.Nack false false) c
      else
        let handled :=
          if String.eqb (Action propertyMsg) "create"
          then Some (handleCreate (PropertyID propertyMsg) c)
          else if String.eqb (Action propertyMsg) "update"
          then Some (handleUpdate (PropertyID propertyMsg) c)
          else if String.eqb (Action propertyMsg) "delete"
          then Some (handleDelete (PropertyID propertyMsg) c)
          else None in
        match handled with
        | None => send (amqp.Nack false false) c
        | Some (c, Some err) => send (amqp.Nack false true) c
        | Some (c, None) => send (amqp.Ack false) c
        end
  end.

End WithService.
Arguments t W : clear implicits.
End RabbitMQConsumer.

End consumers.

(** ** Package [controllers]: defaults and validation of the HTTP path *)
Module controllers.

Import golang.

Definition applyDefaults (request : dto.SearchRequest) : dto.SearchRequest :=
  let request := if dto.Page request <? 1 then dto.withPage 1 request else request in
  let request := if dto.PageSize request <? 1 then dto.withPageSize 10 request else request in
  let request := if String.eqb (dto.SortBy request) ""
                 then dto.withSortBy "price_per_night" request else request in
  let request := if String.eqb (dto.SortOrder request) ""
                 then dto.withSortOrder "asc" request else request in
  request.

(** [*ValidationError] is its message. *)
Definition validateSearchRequest (request : dto.SearchRequest) : option error :=
  if dto.Page request <? 1 then Some "Page must be >= 1"
  else if dto.PageSize request <? 1 then Some "PageSize must be > 0"
  else if dto.PageSize request >? 100 then Some "PageSize must be <= 100"
  else if negb (String.eqb (dto.SortOrder request) "")
          && negb (String.eqb (dto.SortOrder request) "asc")
          && negb (String.eqb (dto.SortOrder request) "desc")
       then Some "SortOrder must be 'asc' or 'desc'"
  else if PrimFloat.ltb (dto.MinPrice request) 0 then Some "MinPrice cannot be negative"
  else if PrimFloat.ltb (dto.MaxPrice request) 0 then Some "MaxPrice cannot be negative"
  else if PrimFloat.ltb 0 (dto.MinPrice request)
          && PrimFloat.ltb 0 (dto.MaxPrice request)
          && PrimFloat.ltb (dto.MaxPrice request) (dto.MinPrice request)
       then Some "MinPrice cannot be greater than MaxPrice"
  else if dto.Bedrooms request <? 0 then Some "Bedrooms cannot be negative"
  else if dto.Bathrooms request <? 0 then Some "Bathrooms cannot be negative"
  else if dto.MinGuests request <? 0 then Some "MinGuests cannot be negative"
  else None.

Module SearchController.
Section WithService.
Context {W : Type} {svc : services.SearchService.t W}.

Record t := {
  service : W
}.

(** The handler from the parsed query string on: [parsed] is what
    [parseSearchRequest] returned.  The result is the status code with
    the response or the error message written. *)
Definition Search (method : string) (parsed : result dto.SearchRequest) (c : t)
    : t * (int * result dto.SearchResponse) :=
  if negb (String.eqb method "GET") then (c, (405, Err "Method not allowed"))
  else
    match parsed with
    | Err err => (c, (400, Err err))
    | Ok request =>
        let request := applyDefaults request in
        match validateSearchRequest request with
        | Some err => (c, (400, Err err))
        | None =>
            let '(w, res) := services.SearchService.Search request (service c) in
            let c := {| service := w |} in
            match res with
            | Err _ => (c, (500, Err "Internal server error"))
            | Ok response => (c, (200, Ok response))
            end
        end
    end.

End WithService.
Arguments t W : clear implicits.
End SearchController.

End controllers.

(** ** The search engine, as far as mutations go

    Modelled from the spec: the engine is an external collaborator, so
    this is its contract and not code of the repository.  A document is
    stored under its identifier, the engine's document key; posting a
    document under a key already present replaces it; a delete removes
    by key; nothing is visible before a commit.  How a request is read
    ([decode]) and what a success answer looks like ([okBody]) are left
    to the wire format. *)
Module engine.

Import golang.

Inductive Op :=
| Add (key doc : string)
| Delete (key : string)
| Commit
| Select
| Unknown.

Record t := {
  pending : list Op;
  index : gmap string string
}.

Definition apply (idx : gmap string string) (op : Op) : gmap string string :=
  match op with
  | Add key doc => <[key := doc]> idx
  | Delete key => delete key idx
  | _ => idx
  end.

Definition answer (status : int) (body : string) : result http.Response :=
  Ok {| http.StatusCode := status; http.RespBody := body; http.ReadErr := None |}.

Section Wire.
Variable decode : http.Request -> Op.
Variable okBody : string.

Definition handle (req : http.Request) (e : t) : t * result http.Response :=
  match decode req with
  | Add key doc =>
      ({| pending := (pending e ++ [Add key doc])%list; index := index e |},
       answer 200 okBody)
  | Delete key =>
      ({| pending := (pending e ++ [Delete key])%list; index := index e |},
       answer 200 okBody)
  | Commit =>
      ({| pending := []; index := fold_left apply (pending e) (index e) |},
       answer 200 okBody)
  | Select => (e, answer 200 okBody)
  | Unknown => (e, answer 400 "bad request")
  end.

Definition client : http.Client t := {| http.Do := handle |}.

End Wire.
End engine.

(** ** Test doubles: a wire format and collaborators to run the code on *)
Module fakes.

Import golang.

(** [cut sep s]: [s] before and after its first [sep]. *)
Fixpoint cut (sep : ascii) (s : string) : string * string :=
  match s with
  | EmptyString => (EmptyString, EmptyString)
  | String c s' =>
      if Ascii.eqb c sep then (EmptyString, s')
      else let '(a, b) := cut sep s' in (String c a, b)
  end.

Definition listing (id title city : string) : domain.Property :=
  {| domain.ID := id; domain.Title := title; domain.Description := "";
     domain.City := city; domain.Country := "IT"; domain.PricePerNight := 80%float;
     domain.Bedrooms := 1; domain.Bathrooms := 1; domain.MaxGuests := 2;
     domain.Images := []; domain.OwnerID := 7; domain.Available := true;
     domain.CreatedAt := "" |}.

(** A line-oriented stand-in for JSON: a listing is [id|title|city], a
    change event is [action id], a cached result is its total. *)
Definition platform : Platform := {|
  Sprintf_f := fun _ => "0.000000";
  Sprintf_2f := fun _ => "0.00";
  md5_hex := fun s => s;
  Values_Encode := fun v => "q=" ++ String.concat "," (default [] (v !! "q"));
  NewRequest := fun method url body =>
    Ok {| http.Method := method; http.URL := url; http.Body := body; http.Header := [] |};
  Marshal_Property := fun p =>
    Ok (domain.ID p ++ "|" ++ domain.Title p ++ "|" ++ domain.City p);
  Unmarshal_Property := fun body =>
    if String.eqb body "" then Err "unexpected end of JSON input"
    else
      let '(id, rest) := cut "|" body in
      let '(title, city) := cut "|" rest in
      Ok (listing id title city);
  Marshal_cacheData := fun d => Ok (Itoa (snd d));
  Unmarshal_cacheData := fun body =>
    match NilZero.int_of_string body with
    | Some total => Ok ([], Z.of_int total)
    | None => Err "invalid character"
    end;
  Marshal_deleteCmd := fun id => Ok ("delete " ++ id);
  Marshal_commitCmd := Ok "commit";
  Unmarshal_solrSearchResponse := fun _ => Ok (0, []);
  Unmarshal_solrUpdateResponse := fun body =>
    if String.eqb body "ok" then Ok 0 else Err "invalid character";
  Unmarshal_PropertyMessage := fun body =>
    if String.prefix "{" body then Err "invalid character"
    else Ok (cut " " body);
  float64_to_int := fun _ => 0;
  float64_to_uint := fun _ => 0;
  time_Parse_RFC3339 := fun s => Ok s
|}.

(** The engine's side of the wire format, for a core at [http://solr]. *)
Definition decode (req : http.Request) : engine.Op :=
  if String.eqb (http.URL req) "http://solr/update/json/docs"
  then match http.Body req with
       | Some doc => engine.Add (fst (cut "|" doc)) doc
       | None => engine.Unknown
       end
  else if String.eqb (http.URL req) "http://solr/update"
  then match http.Body req with
       | Some body =>
           if String.eqb body "commit" then engine.Commit
           else if String.prefix "delete " body then engine.Delete (snd (cut " " body))
           else engine.Unknown
       | None => engine.Unknown
       end
  else if String.prefix "http://solr/select?" (http.URL req) then engine.Select
  else engine.Unknown.

Definition solr : http.Client engine.t := engine.client decode "ok".

(** A memcached server: [None] is a server that cannot be reached. *)
Definition memcached : memcache.Client (option (gmap string string)) := {|
  memcache.Get := fun key m =>
    (m, match m with
        | None => memcache.GetErr (memcache.ErrOther "connection refused")
        | Some kv =>
            match kv !! key with
            | Some v => memcache.GetItem {| memcache.Key := key; memcache.Value := v;
                                            memcache.Expiration := 0 |}
            | None => memcache.GetErr memcache.ErrCacheMiss
            end
        end);
  memcache.Set_ := fun item m =>
    match m with
    | None => (m, Some (memcache.ErrOther "connection refused"))
    | Some kv => (Some (<[memcache.Key item := memcache.Value item]> kv), None)
    end;
  memcache.Delete := fun key m =>
    match m with
    | None => (m, Some (memcache.ErrOther "connection refused"))
    | Some kv =>
        (Some (delete key kv),
         match kv !! key with Some _ => None | None => Some memcache.ErrCacheMiss end)
    end
|}.

(** The canonical store behind the properties API: the body served at
    each URL; an unknown URL is answered 404; [None] is a store that
    cannot be reached. *)
Definition api : http.Client (option (gmap string string)) := {|
  http.Do := fun req a =>
    (a, match a with
        | None => Err "dial tcp: connection refused"
        | Some served =>
            match served !! http.URL req with
            | Some body => engine.answer 200 body
            | None => engine.answer 404 "not found"
            end
        end)
|}.

(** A [SolrRepository] over a list of listings: a search returns them
    all, an index or update replaces by identifier. *)
Definition others (id : string) (docs : list domain.Property) : list domain.Property :=
  List.filter (fun d => negb (String.eqb (domain.ID d) id)) docs.

Definition listings : repositories.SolrRepository.t (list domain.Property) := {|
  repositories.SolrRepository.Search := fun _ docs =>
    (docs, (docs, Z.of_nat (length docs), None));
  repositories.SolrRepository.IndexProperty := fun p docs =>
    (p :: others (domain.ID p) docs, None);
  repositories.SolrRepository.UpdateProperty := fun p docs =>
    (p :: others (domain.ID p) docs, None);
  repositories.SolrRepository.DeleteProperty := fun id docs => (others id docs, None)
|}.

(** A [SolrRepository] that answers every search with no documents and
    a given [numFound]. *)
Definition reporting (numFound : int) : repositories.SolrRepository.t unit := {|
  repositories.SolrRepository.Search := fun _ u => (u, ([], numFound, None));
  repositories.SolrRepository.IndexProperty := fun _ u => (u, None);
  repositories.SolrRepository.UpdateProperty := fun _ u => (u, None);
  repositories.SolrRepository.DeleteProperty := fun _ u => (u, None)
|}.

(** An empty two-tier cache in front of a reachable, empty memcached. *)
Definition emptyCache : repositories.cacheRepository.t (option (gmap string string)) :=
  {| repositories.cacheRepository.localCache := ∅;
     repositories.cacheRepository.memcachedClient := Some ∅;
     repositories.cacheRepository.now := 0;
     repositories.cacheRepository.calls := [] |}.

(** The service over a [SolrRepository] state [docs], the empty cache
    and a canonical store serving [served]. *)
Definition service {S : Type} (docs : S) (served : option (gmap string string))
    : services.searchService.t S
        (repositories.cacheRepository.t (option (gmap string string)))
        (option (gmap string string)) :=
  {| services.searchService.solrRepo := docs;
     services.searchService.cacheRepo := emptyCache;
     services.searchService.propertiesAPIURL := "http://api";
     services.searchService.httpClient := served |}.

(** An empty engine core behind the query translator. *)
Definition core : repositories.solrRepository.t engine.t :=
  {| repositories.solrRepository.solrURL := "http://solr/";
     repositories.solrRepository.httpClient := {| engine.pending := []; engine.index := ∅ |} |}.

(** The canonical store with listing 42. *)
Definition store : option (gmap string string) :=
  Some {[ "http://api/properties/42" := "42|Loft|Rome" ]}.

(** The consumer over the query translator, the empty cache and a
    canonical store. *)
Definition consumer (served : option (gmap string string)) :=
  {| consumers.RabbitMQConsumer.channel := [];
     consumers.RabbitMQConsumer.queueName := "properties_queue";
     consumers.RabbitMQConsumer.service := service core served |}.

(** The first page of a search that found listing 42 alone. *)
Definition onePage : dto.SearchResponse :=
  {| dto.Results := [listing "42" "Loft" "Rome"]; dto.TotalResults := 1;
     dto.RespPage := 1; dto.RespPageSize := 10; dto.TotalPages := 1 |}.

(** The first page of a search that found nothing. *)
Definition noResults : dto.SearchResponse :=
  {| dto.Results := []; dto.TotalResults := 0;
     dto.RespPage := 1; dto.RespPageSize := 10; dto.TotalPages := 0 |}.

(** A cache at time 5: [k] in the in-process tier until time 10, in
    front of a memcached that cannot be reached. *)
Definition warm : repositories.cacheRepository.t (option (gmap string string)) :=
  {| repositories.cacheRepository.localCache :=
       {[ "k" := {| ccache.Value := {| repositories.Properties := [];
                                       repositories.Total := 3 |};
                    ccache.expires := 10 |} ]};
     repositories.cacheRepository.memcachedClient := None;
     repositories.cacheRepository.now := 5;
     repositories.cacheRepository.calls := [] |}.

(** A memcached that holds [v] under [k]. *)
Definition holding (v : string) : option (gmap string string) :=
  Some {[ "k" := v ]}.

(** A cache at time 5 whose in-process entry for [k] expired at time 1;
    memcached holds [kv]. *)
Definition cold (kv : option (gmap string string))
    : repositories.cacheRepository.t (option (gmap string string)) :=
  {| repositories.cacheRepository.localCache :=
       {[ "k" := {| ccache.Value := {| repositories.Properties := [];
                                       repositories.Total := 3 |};
                    ccache.expires := 1 |} ]};
     repositories.cacheRepository.memcachedClient := kv;
     repositories.cacheRepository.now := 5;
     repositories.cacheRepository.calls := [] |}.

End fakes.

(** ** The notions the statements of Part II are phrased in *)
Module spec.

Import golang.
Import repositories services.

(** The checks [searchService.validateSearchRequest] makes once the
    defaults are written into the request. *)
Definition serviceChecks (request : dto.SearchRequest) : option error :=
  if negb (String.eqb (dto.SortOrder request) "asc")
     && negb (String.eqb (dto.SortOrder request) "desc")
  then Some "invalid sort_order: must be 'asc' or 'desc'"
  else if PrimFloat.ltb (dto.MinPrice request) 0 then Some "min_price cannot be negative"
  else if PrimFloat.ltb (dto.MaxPrice request) 0 then Some "max_price cannot be negative"
  else if PrimFloat.ltb 0 (dto.MinPrice request)
          && PrimFloat.ltb 0 (dto.MaxPrice request)
          && PrimFloat.ltb (dto.MaxPrice request) (dto.MinPrice request)
  then Some "min_price cannot be greater than max_price"
  else if dto.Bedrooms request <? 0 then Some "bedrooms cannot be negative"
  else if dto.Bathrooms request <? 0 then Some "bathrooms cannot be negative"
  else if dto.MinGuests request <? 0 then Some "min_guests cannot be negative"
  else None.

(** [n] is the ceiling of [total / pageSize]: the least multiple of the
    page size that holds [total] is the [n]-th. *)
Definition is_ceiling (n total pageSize : Z) : Prop :=
  (n - 1) * pageSize < total <= n * pageSize.

(** Byte-wise substitution: every byte replaced by a string. *)
Fixpoint substitute (f : ascii -> string) (s : string) : string :=
  match s with
  | EmptyString => EmptyString
  | String c s' => f c ++ substitute f s'
  end.

(** The characters [escapeSolrQuery] names. *)
Definition escaped : list ascii :=
  [backslash; "+"; "-"; "&"; "|"; "!"; "("; ")"; "{"; "}"; "["; "]"; "^"; dquote;
   "~"; "*"; "?"; ":"]%char.

Definition isEscaped (c : ascii) : bool := existsb (Ascii.eqb c) escaped.

Definition escapeByte (c : ascii) : string :=
  if isEscaped c then String backslash (String c "") else String c "".

(** The request [IndexProperty] and [commit] send: a JSON body posted. *)
Definition jsonPost (url body : string) : http.Request :=
  {| http.Method := "POST"; http.URL := url; http.Body := Some body;
     http.Header := [("Content-Type", "application/json")] |}.

(** The entry of the in-process cache for [key], if it has not expired. *)
Definition unexpired {M : Type} (r : cacheRepository.t M) (key : string)
    : option cacheData :=
  match cacheRepository.localCache r !! key with
  | Some item => if ccache.Expired item (cacheRepository.now r) then None
                 else Some (ccache.Value item)
  | None => None
  end.

Section Consumer.
Context {platform : Platform} {W : Type} {svc : SearchService.t W}.

(** The rejection policy in the spec's words.  [mutation] is what a
    well-formed event asks for: fetch the canonical listing and index or
    update it, or delete; [None] for an action that is none of the three. *)
Definition mutation (action propertyID : string) (w : W) : option (option error) :=
  if String.eqb action "create"
  then Some match SearchService.FetchPropertyFromAPI propertyID w with
            | (_, Err err) => Some err
            | (w, Ok property) => snd (SearchService.IndexProperty property w)
            end
  else if String.eqb action "update"
  then Some match SearchService.FetchPropertyFromAPI propertyID w with
            | (_, Err err) => Some err
            | (w, Ok property) => snd (SearchService.UpdateProperty property w)
            end
  else if String.eqb action "delete"
  then Some (snd (SearchService.DeleteProperty propertyID w))
  else None.

Definition policy (msg : amqp.Delivery) (w : W) : amqp.Disposition :=
  match Unmarshal_PropertyMessage (amqp.Body msg) with
  | Err _ => amqp.Nack false false
  | Ok (action, propertyID) =>
      if String.eqb propertyID "" then amqp.Nack false false
      else
        match mutation action propertyID w with
        | None => amqp.Nack false false
        | Some (Some _) => amqp.Nack false true
        | Some None => amqp.Ack false
        end
  end.

End Consumer.

End spec.

(* ===================================================================== *)
(** * Part II: properties                                                 *)
(* ===================================================================== *)

Import golang.
Import repositories services consumers spec.

Ltac split_if :=
  match goal with
  | |- context [if ?b then _ else _] => let E := fresh "E" in destruct b eqn:E; cbn
  end.

Ltac bool_hyps :=
  repeat match goal with
  | H : (_ <? _) = true |- _ => apply Z.ltb_lt in H
  | H : (_ <? _) = false |- _ => apply Z.ltb_ge in H
  | H : (_ >? _) = true |- _ => rewrite Z.gtb_ltb in H
  | H : (_ >? _) = false |- _ => rewrite Z.gtb_ltb in H
  | H : String.eqb _ _ = true |- _ => apply String.eqb_eq in H
  | H : String.eqb _ _ = false |- _ => apply String.eqb_neq in H
  | H : negb _ = true |- _ => apply negb_true_iff in H
  | H : negb _ = false |- _ => apply negb_false_iff in H
  | H : _ && _ = true |- _ => apply andb_true_iff in H; destruct H
  end.

(** ** Defaults and validation of a search request *)

(** Both layers write the same defaults; field by field: *)
Lemma applyDefaults_eq (r : dto.SearchRequest) :
  controllers.applyDefaults r =
  {| dto.Query := dto.Query r; dto.City := dto.City r; dto.Country := dto.Country r;
     dto.MinPrice := dto.MinPrice r; dto.MaxPrice := dto.MaxPrice r;
     dto.Bedrooms := dto.Bedrooms r; dto.Bathrooms := dto.Bathrooms r;
     dto.MinGuests := dto.MinGuests r;
     dto.Page := if dto.Page r <? 1 then 1 else dto.Page r;
     dto.PageSize := if dto.PageSize r <? 1 then 10 else dto.PageSize r;
     dto.SortBy := if String.eqb (dto.SortBy r) "" then "price_per_night" else dto.SortBy r;
     dto.SortOrder := if String.eqb (dto.SortOrder r) "" then "asc" else dto.SortOrder r |}.
Proof.
  destruct r as [q ci co lo hi be ba mg pg ps sb so].
  unfold controllers.applyDefaults; cbn.
  destruct (pg <? 1); cbn; destruct (ps <? 1); cbn;
    destruct (String.eqb sb ""); cbn; destruct (String.eqb so ""); reflexivity.
Qed.

Lemma validateSearchRequest_eq (r : dto.SearchRequest) :
  searchService.validateSearchRequest r
  = (controllers.applyDefaults r, serviceChecks (controllers.applyDefaults r)).
Proof.
  rewrite applyDefaults_eq.
  destruct r as [q ci co lo hi be ba mg pg ps sb so].
  unfold searchService.validateSearchRequest, serviceChecks; cbn.
  destruct (pg <? 1); cbn; destruct (ps <? 1); cbn;
    destruct (String.eqb sb ""); cbn; destruct (String.eqb so ""); cbn;
    repeat split_if; reflexivity.
Qed.

Lemma applyDefaults_idempotent (r : dto.SearchRequest) :
  controllers.applyDefaults (controllers.applyDefaults r) = controllers.applyDefaults r.
Proof.
  rewrite (applyDefaults_eq (controllers.applyDefaults r)), (applyDefaults_eq r); cbn.
  f_equal.
  - destruct (dto.Page r <? 1) eqn:E; [reflexivity | now rewrite E].
  - destruct (dto.PageSize r <? 1) eqn:E; [reflexivity | now rewrite E].
  - destruct (String.eqb (dto.SortBy r) "") eqn:E; [reflexivity | now rewrite E].
  - destruct (String.eqb (dto.SortOrder r) "") eqn:E; [reflexivity | now rewrite E].
Qed.

Lemma sortOrder_checked (so : string) :
  negb (String.eqb so "") && negb (String.eqb so "asc") && negb (String.eqb so "desc") = false
  <-> so = "" \/ so = "asc" \/ so = "desc".
Proof.
  rewrite !andb_false_iff, !negb_false_iff, !String.eqb_eq. tauto.
Qed.

Lemma validation_accepts_iff (r : dto.SearchRequest) :
  controllers.validateSearchRequest (controllers.applyDefaults r) = None <->
  (dto.PageSize r <= 100
   /\ (dto.SortOrder r = "" \/ dto.SortOrder r = "asc" \/ dto.SortOrder r = "desc")
   /\ PrimFloat.ltb (dto.MinPrice r) 0 = false
   /\ PrimFloat.ltb (dto.MaxPrice r) 0 = false
   /\ PrimFloat.ltb 0 (dto.MinPrice r) && PrimFloat.ltb 0 (dto.MaxPrice r)
      && PrimFloat.ltb (dto.MaxPrice r) (dto.MinPrice r) = false
   /\ 0 <= dto.Bedrooms r /\ 0 <= dto.Bathrooms r /\ 0 <= dto.MinGuests r).
Proof.
  rewrite applyDefaults_eq.
  destruct r as [q ci co lo hi be ba mg pg ps sb so].
  unfold controllers.validateSearchRequest; cbn.
  destruct (pg <? 1) eqn:Hpg; cbn; destruct (ps <? 1) eqn:Hps; cbn;
    destruct (String.eqb so "") eqn:Hso; cbn.
  all: repeat split_if; bool_hyps; subst.
  all: try match goal with
           | H : _ && _ && negb _ = false |- _ => apply sortOrder_checked in H
           end.
  all: split; [ try discriminate; intros _ | intros (? & ? & ? & ? & ? & ? & ? & ?) ].
  all: intuition (try congruence; try lia).
Qed.

Section ControllerFacts.
Context {W : Type} {svc : SearchService.t W}.

(** The handler answers 400 to a parsed GET request exactly when the
    validation of the defaulted request fails. *)
Lemma Search_handler_400 (r : dto.SearchRequest) (c : controllers.SearchController.t W) :
  fst (snd (controllers.SearchController.Search "GET" (Ok r) c)) = 400
  <-> controllers.validateSearchRequest (controllers.applyDefaults r) <> None.
Proof.
  unfold controllers.SearchController.Search. cbn [String.eqb Ascii.eqb Bool.eqb negb].
  destruct (controllers.validateSearchRequest _) as [err|]; cbn.
  - split; [discriminate | reflexivity].
  - destruct (SearchService.Search _ _) as [w [resp|err]]; cbn;
      (split; [discriminate | congruence]).
Qed.

(** C1, as the code has it.  On the HTTP path [applyDefaults] runs before
    [validateSearchRequest], so a page or page size below 1 is replaced
    by 1 or 10 and never rejected.  A request is accepted exactly when
    its page size is at most 100, its sort order is empty, asc or desc,
    no price bound is negative, the bounds are not both positive with
    min above max, and no count is negative; the handler answers 400
    exactly when it is not accepted. *)
Theorem http_validation_boundaries (r : dto.SearchRequest)
    (c : controllers.SearchController.t W) :
  (controllers.validateSearchRequest (controllers.applyDefaults r) = None <->
   (dto.PageSize r <= 100
    /\ (dto.SortOrder r = "" \/ dto.SortOrder r = "asc" \/ dto.SortOrder r = "desc")
    /\ PrimFloat.ltb (dto.MinPrice r) 0 = false
    /\ PrimFloat.ltb (dto.MaxPrice r) 0 = false
    /\ PrimFloat.ltb 0 (dto.MinPrice r) && PrimFloat.ltb 0 (dto.MaxPrice r)
       && PrimFloat.ltb (dto.MaxPrice r) (dto.MinPrice r) = false
    /\ 0 <= dto.Bedrooms r /\ 0 <= dto.Bathrooms r /\ 0 <= dto.MinGuests r))
  /\ (fst (snd (controllers.SearchController.Search "GET" (Ok r) c)) = 400
      <-> controllers.validateSearchRequest (controllers.applyDefaults r) <> None).
Proof. split; [apply validation_accepts_iff | apply Search_handler_400]. Qed.

End ControllerFacts.

(** The other boundary values of the spec, each on an otherwise empty
    request. *)
Example http_validation_examples :
  let verdict r := controllers.validateSearchRequest (controllers.applyDefaults r) in
  verdict (dto.withPageSize 101 dto.zero) = Some "PageSize must be <= 100"
  /\ verdict (dto.withSortOrder "sideways" dto.zero) = Some "SortOrder must be 'asc' or 'desc'"
  /\ verdict (dto.withPrices 10%float 5%float dto.zero) = Some "MinPrice cannot be greater than MaxPrice"
  /\ verdict (dto.withPrices 5%float 10%float dto.zero) = None.
Proof. cbv zeta. repeat split; reflexivity. Qed.

(** ** Page arithmetic *)

Lemma wrap_in_range (z : Z) : minInt <= z <= maxInt -> wrap z = z.
Proof.
  unfold wrap, minInt, maxInt. intros Hz.
  rewrite Z.mod_small by lia. lia.
Qed.

Lemma wrap_wrap_sub (z k : Z) : wrap (wrap z - k) = wrap (z - k).
Proof.
  unfold wrap. f_equal.
  replace ((z - minInt) mod 2 ^ 64 + minInt - k - minInt)
    with ((z - minInt) mod 2 ^ 64 - k) by lia.
  replace (z - k - minInt) with ((z - minInt) - k) by lia.
  now rewrite Zminus_mod_idemp_l.
Qed.

Lemma totalPages_is_ceiling (total pageSize : int) :
  0 <= total -> 1 <= pageSize -> total + pageSize - 1 <= maxInt ->
  is_ceiling (quo (sub (add total pageSize) 1) pageSize) total pageSize.
Proof.
  intros Ht Hp Hmax. unfold quo, sub, add.
  rewrite wrap_wrap_sub, (wrap_in_range (total + pageSize - 1))
    by (unfold minInt, maxInt in *; lia).
  rewrite Z.quot_div_nonneg by lia.
  assert (Hq : 0 <= (total + pageSize - 1) / pageSize <= total + pageSize - 1).
  { split; [apply Z.div_pos; lia|].
    apply Z.div_le_upper_bound; [lia|]. nia. }
  rewrite wrap_in_range by (unfold minInt, maxInt in *; lia).
  unfold is_ceiling.
  pose proof (Z.div_mod (total + pageSize - 1) pageSize ltac:(lia)) as Hdm.
  pose proof (Z.mod_pos_bound (total + pageSize - 1) pageSize ltac:(lia)) as Hm.
  nia.
Qed.


(** ** The search operation *)
Section SearchFacts.
Context {platform : Platform} {S C A : Type}
  {solr : SolrRepository.t S} {cache : CacheRepository.t C} {client : http.Client A}.

Implicit Types (r : dto.SearchRequest) (s : searchService.t S C A).

Lemma applyDefaults_PageSize r : 1 <= dto.PageSize (controllers.applyDefaults r).
Proof.
  rewrite applyDefaults_eq; cbn. destruct (dto.PageSize r <? 1) eqn:E; lia.
Qed.

(** What a successful [Search] returns: the page size is the defaulted
    one, and the page count is computed from the total the cache or the
    engine gave. *)
Lemma Search_response r s resp :
  snd (searchService.Search r s) = Ok resp ->
  dto.RespPageSize resp = dto.PageSize (controllers.applyDefaults r)
  /\ dto.RespPage resp = dto.Page (controllers.applyDefaults r)
  /\ dto.TotalPages resp
     = quo (sub (add (dto.TotalResults resp) (dto.RespPageSize resp)) 1) (dto.RespPageSize resp).
Proof.
  unfold searchService.Search. rewrite validateSearchRequest_eq.
  destruct (serviceChecks _); [discriminate|].
  destruct (CacheRepository.Get _ _) as [c [[properties total] found]].
  destruct found; cbn.
  - intros [= <-]; cbn; auto.
  - destruct (SolrRepository.Search _ _) as [e [[properties' total'] [err|]]]; cbn;
      [discriminate|].
    intros [= <-]; cbn; auto.
Qed.

(** C8, as the code has it.  For every successful search, on the cache
    path and on the engine path alike, the page size returned is at
    least 1 and, when the total is not negative and total + pageSize - 1
    does not exceed the largest int, total_pages is the ceiling of
    total_results / page_size. *)
Theorem total_pages_is_ceiling r s resp :
  snd (searchService.Search r s) = Ok resp ->
  0 <= dto.TotalResults resp ->
  dto.TotalResults resp + dto.RespPageSize resp - 1 <= maxInt ->
  1 <= dto.RespPageSize resp
  /\ is_ceiling (dto.TotalPages resp) (dto.TotalResults resp) (dto.RespPageSize resp).
Proof.
  intros Hs Ht Hmax.
  destruct (Search_response _ _ _ Hs) as (Hps & _ & Htp).
  assert (1 <= dto.RespPageSize resp) by (rewrite Hps; apply applyDefaults_PageSize).
  split; [assumption|].
  rewrite Htp. now apply totalPages_is_ceiling.
Qed.

Lemma Search_defaulted r s :
  searchService.Search r s = searchService.Search (controllers.applyDefaults r) s.
Proof.
  unfold searchService.Search.
  now rewrite !validateSearchRequest_eq, applyDefaults_idempotent.
Qed.

(** C4.  The cache key is a function of the defaulted request: two
    requests with the same defaulted fields get the same key, and the
    whole search runs identically on them.  In particular a page below 1
    and page 1, a page size below 1 and 10, an empty sort field and
    price_per_night, an empty sort order and asc give the same key. *)
Theorem fingerprint_determinism :
  (forall r1 r2,
      fst (searchService.validateSearchRequest r1) = fst (searchService.validateSearchRequest r2) ->
      searchService.generateCacheKey (fst (searchService.validateSearchRequest r1))
      = searchService.generateCacheKey (fst (searchService.validateSearchRequest r2))
      /\ forall s, searchService.Search r1 s = searchService.Search r2 s)
  /\ (forall r p, p < 1 ->
      searchService.generateCacheKey (fst (searchService.validateSearchRequest (dto.withPage p r)))
      = searchService.generateCacheKey (fst (searchService.validateSearchRequest (dto.withPage 1 r))))
  /\ (forall r n, n < 1 ->
      searchService.generateCacheKey (fst (searchService.validateSearchRequest (dto.withPageSize n r)))
      = searchService.generateCacheKey (fst (searchService.validateSearchRequest (dto.withPageSize 10 r))))
  /\ (forall r,
      searchService.generateCacheKey (fst (searchService.validateSearchRequest (dto.withSortBy "" r)))
      = searchService.generateCacheKey
          (fst (searchService.validateSearchRequest (dto.withSortBy "price_per_night" r))))
  /\ (forall r,
      searchService.generateCacheKey (fst (searchService.validateSearchRequest (dto.withSortOrder "" r)))
      = searchService.generateCacheKey
          (fst (searchService.validateSearchRequest (dto.withSortOrder "asc" r)))).
Proof.
  split; [|split; [|split; [|split]]].
  - intros r1 r2 Heq. split; [now rewrite Heq|].
    intros s. rewrite (Search_defaulted r1), (Search_defaulted r2).
    rewrite !validateSearchRequest_eq in Heq. cbn in Heq. now rewrite Heq.
  - intros r p Hp. f_equal. rewrite !validateSearchRequest_eq, !applyDefaults_eq; cbn.
    apply Z.ltb_lt in Hp. now rewrite Hp.
  - intros r n Hn. f_equal. rewrite !validateSearchRequest_eq, !applyDefaults_eq; cbn.
    apply Z.ltb_lt in Hn. now rewrite Hn.
  - intros r. f_equal. now rewrite !validateSearchRequest_eq, !applyDefaults_eq.
  - intros r. f_equal. now rewrite !validateSearchRequest_eq, !applyDefaults_eq.
Qed.

(** C10.  For a page size n >= 1 the verdict of the service's validation
    is the one for page size 1 and the request keeps n; when the request
    is valid and the cache misses, the engine is searched with that
    request, page size n included.  The HTTP controller is where a page
    size above 100 is rejected. *)
Theorem service_accepts_any_page_size r (n : int) :
  1 <= n ->
  snd (searchService.validateSearchRequest (dto.withPageSize n r))
  = snd (searchService.validateSearchRequest (dto.withPageSize 1 r))
  /\ dto.PageSize (fst (searchService.validateSearchRequest (dto.withPageSize n r))) = n
  /\ (forall s,
        let request := fst (searchService.validateSearchRequest (dto.withPageSize n r)) in
        snd (searchService.validateSearchRequest (dto.withPageSize n r)) = None ->
        snd (snd (CacheRepository.Get (searchService.generateCacheKey request)
                    (searchService.cacheRepo s))) = false ->
        searchService.solrRepo (fst (searchService.Search (dto.withPageSize n r) s))
        = fst (SolrRepository.Search request (searchService.solrRepo s)))
  /\ (100 < n ->
      controllers.validateSearchRequest (controllers.applyDefaults (dto.withPageSize n r))
      = Some "PageSize must be <= 100").
Proof.
  intros Hn. assert (En : (n <? 1) = false) by (apply Z.ltb_ge; lia).
  split; [|split; [|split]].
  - rewrite !validateSearchRequest_eq, !applyDefaults_eq; cbn. now rewrite En.
  - rewrite validateSearchRequest_eq, applyDefaults_eq; cbn. now rewrite En.
  - intros s request Hok Hmiss. subst request.
    unfold searchService.Search.
    destruct (searchService.validateSearchRequest _) as [request err]; cbn in *. subst err.
    destruct (CacheRepository.Get _ _) as [c [[properties total] found]]; cbn in *.
    subst found.
    destruct (SolrRepository.Search _ _) as [e [[properties' total'] [err|]]]; reflexivity.
  - intros Hbig. rewrite applyDefaults_eq.
    unfold controllers.validateSearchRequest; cbn. rewrite En.
    destruct (dto.Page r <? 1) eqn:Ep; [|rewrite Ep]; cbn; rewrite En;
      replace (n >? 100) with true by (symmetry; apply Z.gtb_lt; lia); reflexivity.
Qed.

End SearchFacts.

(** ** Escaping *)

Lemma append_cons (x : ascii) (a b : string) : String x a ++ b = String x (a ++ b).
Proof. reflexivity. Qed.

Lemma append_assoc (a b c : string) : (a ++ b) ++ c = a ++ (b ++ c).
Proof.
  induction a as [|x a IH]; [reflexivity|].
  now rewrite !append_cons, IH.
Qed.

Lemma substitute_app (f : ascii -> string) (a b : string) :
  substitute f (a ++ b) = substitute f a ++ substitute f b.
Proof.
  induction a as [|x a IH]; [reflexivity|].
  rewrite append_cons. cbn [substitute]. now rewrite IH, append_assoc.
Qed.

(** Replacing a one-byte [old] is a byte-wise substitution. *)
Lemma ReplaceAll_byte (s : string) (c : ascii) (new : string) :
  ReplaceAll s (String c "") new
  = substitute (fun x => if Ascii.eqb x c then new else String x "") s.
Proof.
  unfold ReplaceAll. induction s as [|x s IH]; [reflexivity|].
  cbn [replaceFrom substitute String.prefix String.length Nat.sub].
  destruct (ascii_dec c x) as [->|Hne].
  - rewrite Ascii.eqb_refl.
    replace (String.prefix "" s) with true by (destruct s; reflexivity).
    now rewrite IH.
  - replace (Ascii.eqb x c) with false
      by (symmetry; apply Ascii.eqb_neq; congruence).
    now rewrite IH.
Qed.

Lemma ReplaceAll_byte_app (a b : string) (c : ascii) (new : string) :
  ReplaceAll (a ++ b) (String c "") new
  = ReplaceAll a (String c "") new ++ ReplaceAll b (String c "") new.
Proof. now rewrite !ReplaceAll_byte, substitute_app. Qed.

Lemma escapeSolrQuery_app (a b : string) :
  escapeSolrQuery (a ++ b) = escapeSolrQuery a ++ escapeSolrQuery b.
Proof.
  unfold escapeSolrQuery. cbv zeta.
  now rewrite !ReplaceAll_byte_app.
Qed.

Lemma escapeSolrQuery_byte (c : ascii) :
  escapeSolrQuery (String c "") = escapeByte c.
Proof.
  destruct c as [[] [] [] [] [] [] [] []]; vm_compute; reflexivity.
Qed.

(** What [escapeSolrQuery] computes: each of the eighteen characters it
    names gets one backslash in front, every other byte is copied.  The
    backslash pass runs first, so the backslashes the later passes insert
    are not escaped again. *)
Lemma escapeSolrQuery_spec (s : string) :
  escapeSolrQuery s = substitute escapeByte s.
Proof.
  induction s as [|c s IH]; [reflexivity|].
  change (String c s) with (String c "" ++ s).
  rewrite escapeSolrQuery_app, escapeSolrQuery_byte, IH. reflexivity.
Qed.


(** ** The cache tier *)
Section CacheFacts.
Context {platform : Platform} {M : Type} {client : memcache.Client M}.

Implicit Types (r : cacheRepository.t M) (key : string).

Lemma Get_unexpired r key data :
  unexpired r key = Some data ->
  cacheRepository.Get key r = (r, (Properties data, Total data, true)).
Proof.
  unfold unexpired, cacheRepository.Get, ccache.Get.
  destruct (cacheRepository.localCache r !! key) as [item|]; [|discriminate].
  destruct (ccache.Expired item _); [discriminate|].
  now intros [= <-].
Qed.

Lemma Get_expired r key :
  unexpired r key = None ->
  cacheRepository.Get key r = cacheRepository.getMemcached key r.
Proof.
  unfold unexpired, cacheRepository.Get, ccache.Get.
  destruct (cacheRepository.localCache r !! key) as [item|]; [|reflexivity].
  now destruct (ccache.Expired item _).
Qed.

(** C7.  [Get] answers from the in-process cache when it holds an
    unexpired entry, leaving the repository as it was: no call is made on
    the memcached client.  Otherwise it makes exactly one [Get] on the
    client; a hit whose value parses is stored in the in-process cache
    for five minutes and returned with found = true; a miss, any other
    client error and a value that does not parse all give found = false
    and leave the in-process cache alone. *)
Theorem Get_two_tiers r key :
  (forall data, unexpired r key = Some data ->
     cacheRepository.Get key r = (r, (Properties data, Total data, true)))
  /\ (unexpired r key = None ->
      forall m res, memcache.Get key (cacheRepository.memcachedClient r) = (m, res) ->
      let r' := fst (cacheRepository.Get key r) in
      cacheRepository.memcachedClient r' = m
      /\ cacheRepository.calls r' = (cacheRepository.calls r ++ [cacheRepository.CallGet key])%list
      /\ match res with
         | memcache.GetItem item =>
             match Unmarshal_cacheData (memcache.Value item) with
             | Ok (properties, total) =>
                 snd (cacheRepository.Get key r) = (properties, total, true)
                 /\ cacheRepository.localCache r'
                    = <[key := {| ccache.Value := {| Properties := properties; Total := total |};
                                  ccache.expires := cacheRepository.now r + 5 * Minute |}]>
                        (cacheRepository.localCache r)
             | Err _ =>
                 snd (cacheRepository.Get key r) = ([], 0, false)
                 /\ cacheRepository.localCache r' = cacheRepository.localCache r
             end
         | memcache.GetErr _ =>
             snd (cacheRepository.Get key r) = ([], 0, false)
             /\ cacheRepository.localCache r' = cacheRepository.localCache r
         end).
Proof.
  split; [intros data; apply Get_unexpired|].
  intros Hmiss m res Hget. cbv zeta. rewrite (Get_expired _ _ Hmiss).
  unfold cacheRepository.getMemcached. rewrite Hget.
  destruct res as [item|[|msg]]; cbn; auto.
  destruct (Unmarshal_cacheData _) as [[properties total]|e]; cbn; auto.
Qed.
End CacheFacts.

(** ** The consumer *)
Section ConsumerFacts.
Context {platform : Platform} {W : Type} {svc : SearchService.t W}.

Implicit Types (c : RabbitMQConsumer.t W) (msg : amqp.Delivery).

(** The channel after [processMessage]: one disposition more, the one
    the policy names. *)
Lemma processMessage_sends msg c :
  RabbitMQConsumer.channel (RabbitMQConsumer.processMessage msg c)
  = (RabbitMQConsumer.channel c ++ [policy msg (RabbitMQConsumer.service c)])%list.
Proof.
  unfold RabbitMQConsumer.processMessage, policy, mutation.
  destruct (Unmarshal_PropertyMessage _) as [[action id]|e]; [|reflexivity]. cbn.
  destruct (String.eqb id ""); [reflexivity|].
  destruct (String.eqb action "create").
  { unfold RabbitMQConsumer.handleCreate.
    destruct (SearchService.FetchPropertyFromAPI _ _) as [w [p|e]]; cbn.
    - destruct (SearchService.IndexProperty _ _) as [w' [e|]]; cbn; reflexivity.
    - reflexivity. }
  destruct (String.eqb action "update").
  { unfold RabbitMQConsumer.handleUpdate.
    destruct (SearchService.FetchPropertyFromAPI _ _) as [w [p|e]]; cbn.
    - destruct (SearchService.UpdateProperty _ _) as [w' [e|]]; cbn; reflexivity.
    - reflexivity. }
  destruct (String.eqb action "delete"); [|reflexivity].
  unfold RabbitMQConsumer.handleDelete.
  destruct (SearchService.DeleteProperty _ _) as [w' [e|]]; reflexivity.
Qed.


(** C3.  [processMessage] sends exactly one disposition for a delivery.
    A body that does not parse, an empty property_id and an action that
    is not create, update or delete are nacked without requeue; a
    well-formed event whose fetch or engine mutation returns an error is
    nacked with requeue; one whose handler succeeds is acked. *)
Theorem processMessage_disposition msg c :
  let sent := RabbitMQConsumer.channel (RabbitMQConsumer.processMessage msg c) in
  let after d := (RabbitMQConsumer.channel c ++ [d])%list in
  let w := RabbitMQConsumer.service c in
  (exists d, sent = after d)
  /\ (forall e, Unmarshal_PropertyMessage (amqp.Body msg) = Err e ->
        sent = after (amqp.Nack false false))
  /\ (forall action, Unmarshal_PropertyMessage (amqp.Body msg) = Ok (action, "") ->
        sent = after (amqp.Nack false false))
  /\ (forall action id,
        Unmarshal_PropertyMessage (amqp.Body msg) = Ok (action, id) -> id <> "" ->
        (action <> "create" -> action <> "update" -> action <> "delete" ->
         sent = after (amqp.Nack false false))
        /\ (forall err, mutation action id w = Some (Some err) ->
              sent = after (amqp.Nack false true))
        /\ (mutation action id w = Some None -> sent = after (amqp.Ack false))).
Proof.
  cbv zeta. rewrite processMessage_sends. unfold policy.
  split; [eexists; reflexivity|].
  split; [intros e ->; reflexivity|].
  split; [intros action ->; reflexivity|].
  intros action id -> Hid.
  replace (String.eqb id "") with false by (symmetry; now apply String.eqb_neq).
  split; [|split].
  - intros Hc Hu Hd. unfold mutation.
    apply String.eqb_neq in Hc, Hu, Hd. now rewrite Hc, Hu, Hd.
  - now intros err ->.
  - now intros ->.
Qed.

End ConsumerFacts.

(** ** Fetching the canonical listing, and the cache after a mutation *)
Section FetchFacts.
Context {platform : Platform} {S C A : Type}
  {solr : SolrRepository.t S} {cache : CacheRepository.t C} {client : http.Client A}.

Implicit Types (s : searchService.t S C A).

(** What [FetchPropertyFromAPI] returns once the request is sent: one
    error for a transport failure, one for every status other than 200. *)
Lemma FetchPropertyFromAPI_failure s id req a res :
  id <> "" ->
  NewRequest "GET" (searchService.propertiesAPIURL s ++ "/properties/" ++ id) None = Ok req ->
  http.Do (http.Header_Set req "Content-Type" "application/json") (searchService.httpClient s)
  = (a, res) ->
  match res with
  | Err cause =>
      searchService.FetchPropertyFromAPI id s
      = (searchService.withClient a s, Err ("error executing request: " ++ cause))
  | Ok resp =>
      http.StatusCode resp <> http.StatusOK ->
      searchService.FetchPropertyFromAPI id s
      = (searchService.withClient a s,
         Err ("properties API returned status " ++ Itoa (http.StatusCode resp) ++ ": "
              ++ http.RespBody resp))
  end.
Proof.
  intros Hid Hreq Hdo. unfold searchService.FetchPropertyFromAPI.
  replace (String.eqb id "") with false by (symmetry; now apply String.eqb_neq).
  rewrite Hreq, Hdo.
  destruct res as [resp|cause]; [|reflexivity].
  intros Hstatus.
  replace (http.StatusCode resp =? http.StatusOK) with false
    by (symmetry; now apply Z.eqb_neq).
  reflexivity.
Qed.

(** C6, as the code has it.  [FetchPropertyFromAPI] has no outcome of
    its own for a missing listing: every status other than 200, 404
    included, is reported by the one error that quotes the status and the
    body, and a transport failure by the error that wraps its cause.  The
    consumer tells none of them apart: a create or update event whose
    fetch fails either way is nacked with requeue. *)
Theorem fetch_failure_is_requeued (msg : amqp.Delivery)
    (c : RabbitMQConsumer.t (searchService.t S C A)) action id req a res :
  Unmarshal_PropertyMessage (amqp.Body msg) = Ok (action, id) ->
  id <> "" ->
  action = "create" \/ action = "update" ->
  NewRequest "GET"
    (searchService.propertiesAPIURL (RabbitMQConsumer.service c) ++ "/properties/" ++ id) None
  = Ok req ->
  http.Do (http.Header_Set req "Content-Type" "application/json")
    (searchService.httpClient (RabbitMQConsumer.service c)) = (a, res) ->
  match res with
  | Err cause =>
      snd (searchService.FetchPropertyFromAPI id (RabbitMQConsumer.service c))
      = Err ("error executing request: " ++ cause)
      /\ RabbitMQConsumer.channel (RabbitMQConsumer.processMessage msg c)
         = (RabbitMQConsumer.channel c ++ [amqp.Nack false true])%list
  | Ok resp =>
      http.StatusCode resp <> http.StatusOK ->
      snd (searchService.FetchPropertyFromAPI id (RabbitMQConsumer.service c))
      = Err ("properties API returned status " ++ Itoa (http.StatusCode resp) ++ ": "
             ++ http.RespBody resp)
      /\ RabbitMQConsumer.channel (RabbitMQConsumer.processMessage msg c)
         = (RabbitMQConsumer.channel c ++ [amqp.Nack false true])%list
  end.
Proof.
  intros Hmsg Hid Haction Hreq Hdo.
  pose proof (FetchPropertyFromAPI_failure _ _ _ _ _ Hid Hreq Hdo) as Hfetch.
  assert (Hrequeue : forall w e,
             searchService.FetchPropertyFromAPI id (RabbitMQConsumer.service c) = (w, Err e) ->
             RabbitMQConsumer.channel (RabbitMQConsumer.processMessage msg c)
             = (RabbitMQConsumer.channel c ++ [amqp.Nack false true])%list).
  { intros w e Hf. rewrite processMessage_sends. unfold policy, mutation.
    rewrite Hmsg.
    replace (String.eqb id "") with false by (symmetry; now apply String.eqb_neq).
    cbn [SearchService.FetchPropertyFromAPI searchService.implements].
    destruct Haction as [-> | ->]; cbn [String.eqb Ascii.eqb Bool.eqb]; now rewrite Hf. }
  destruct res as [resp|cause].
  - intros Hstatus. specialize (Hfetch Hstatus). rewrite Hfetch. split; [reflexivity|].
    now apply (Hrequeue _ _ Hfetch).
  - rewrite Hfetch. split; [reflexivity|]. now apply (Hrequeue _ _ Hfetch).
Qed.

(** Every mutation leaves the cache repository as it was. *)
Lemma mutations_keep_cache s :
  (forall p, searchService.cacheRepo (fst (searchService.IndexProperty p s))
             = searchService.cacheRepo s)
  /\ (forall p, searchService.cacheRepo (fst (searchService.UpdateProperty p s))
                = searchService.cacheRepo s)
  /\ (forall id, searchService.cacheRepo (fst (searchService.DeleteProperty id s))
                 = searchService.cacheRepo s).
Proof.
  split; [|split].
  - intros p. unfold searchService.IndexProperty.
    destruct (searchService.validateProperty p); [reflexivity|].
    destruct (SolrRepository.IndexProperty _ _) as [e [err|]]; reflexivity.
  - intros p. unfold searchService.UpdateProperty.
    destruct (searchService.validateProperty p); [reflexivity|].
    destruct (SolrRepository.UpdateProperty _ _) as [e [err|]]; reflexivity.
  - intros id. unfold searchService.DeleteProperty.
    destruct (String.eqb id ""); [reflexivity|].
    destruct (SolrRepository.DeleteProperty _ _) as [e [err|]]; reflexivity.
Qed.

End FetchFacts.


(** ** Engine mutations *)
Section EngineFacts.
Context {platform : Platform}.
Variable decode : http.Request -> engine.Op.
Variable okBody : string.

Lemma apply_pending (ops : list engine.Op) (op : engine.Op) (idx : gmap string string) :
  fold_left engine.apply (ops ++ [op])%list idx = engine.apply (fold_left engine.apply ops idx) op.
Proof. now rewrite fold_left_app. Qed.

(** One [IndexProperty] against the engine: the document is added under
    its key and committed. *)
Lemma IndexProperty_engine (r : solrRepository.t engine.t) (p : domain.Property)
    (doc key commitJSON : string) :
  (forall method url body,
      NewRequest method url body
      = Ok {| http.Method := method; http.URL := url; http.Body := body; http.Header := [] |}) ->
  Marshal_Property p = Ok doc ->
  Marshal_commitCmd = Ok commitJSON ->
  decode (jsonPost (TrimSuffix (solrRepository.solrURL r) "/" ++ "/update/json/docs") doc)
  = engine.Add key doc ->
  decode (jsonPost (TrimSuffix (solrRepository.solrURL r) "/" ++ "/update") commitJSON)
  = engine.Commit ->
  Unmarshal_solrUpdateResponse okBody = Ok 0 ->
  solrRepository.IndexProperty (client := engine.client decode okBody) p r
  = (solrRepository.withClient
       {| engine.pending := [];
          engine.index :=
            <[key := doc]> (fold_left engine.apply (engine.pending (solrRepository.httpClient r))
                              (engine.index (solrRepository.httpClient r))) |} r,
     None).
Proof.
  intros Hnew Hdoc Hcommit Hadd Hcom Hok.
  unfold solrRepository.IndexProperty.
  rewrite Hdoc, Hnew.
  unfold http.Header_Set; cbn [http.Method http.URL http.Body http.Header List.filter].
  cbn [http.Do engine.client]. unfold engine.handle at 1.
  fold (jsonPost (TrimSuffix (solrRepository.solrURL r) "/" ++ "/update/json/docs") doc).
  rewrite Hadd. cbn. rewrite Hok. cbn.
  unfold solrRepository.commit. rewrite Hcommit, Hnew.
  unfold http.Header_Set; cbn [http.Method http.URL http.Body http.Header List.filter].
  cbn [http.Do engine.client solrRepository.solrURL solrRepository.withClient
       solrRepository.httpClient].
  unfold engine.handle.
  fold (jsonPost (TrimSuffix (solrRepository.solrURL r) "/" ++ "/update") commitJSON).
  rewrite Hcom. cbn. rewrite apply_pending. reflexivity.
Qed.

(** C9.  [UpdateProperty] is [IndexProperty], whatever the transport.
    Against the engine, when client and engine speak the same wire
    format, indexing a listing and then updating it with the same data
    succeeds twice, leaves the document under its key, and leaves the
    engine exactly as the first application did. *)
Theorem update_replays_index (p : domain.Property) (doc key commitJSON : string)
    (r : solrRepository.t engine.t) :
  (forall (H : Type) (client : http.Client H) (r' : solrRepository.t H),
      solrRepository.UpdateProperty p r' = solrRepository.IndexProperty p r')
  /\ ((forall method url body,
          NewRequest method url body
          = Ok {| http.Method := method; http.URL := url; http.Body := body;
                  http.Header := [] |}) ->
      Marshal_Property p = Ok doc ->
      Marshal_commitCmd = Ok commitJSON ->
      decode (jsonPost (TrimSuffix (solrRepository.solrURL r) "/" ++ "/update/json/docs") doc)
      = engine.Add key doc ->
      decode (jsonPost (TrimSuffix (solrRepository.solrURL r) "/" ++ "/update") commitJSON)
      = engine.Commit ->
      Unmarshal_solrUpdateResponse okBody = Ok 0 ->
      let once := solrRepository.IndexProperty (client := engine.client decode okBody) p r in
      let twice :=
        solrRepository.UpdateProperty (client := engine.client decode okBody) p (fst once) in
      snd once = None /\ snd twice = None
      /\ engine.index (solrRepository.httpClient (fst once)) !! key = Some doc
      /\ fst twice = fst once).
Proof.
  split; [reflexivity|].
  intros Hnew Hdoc Hcommit Hadd Hcom Hok. cbv zeta.
  unfold solrRepository.UpdateProperty.
  rewrite (IndexProperty_engine r p doc key commitJSON) by assumption.
  cbn [fst snd].
  rewrite (IndexProperty_engine _ p doc key commitJSON) by assumption.
  cbn. rewrite insert_insert_eq, lookup_insert_eq. auto.
Qed.

End EngineFacts.

(** ** The code run on the test doubles *)
Section Examples.
#[local] Existing Instances fakes.platform fakes.memcached fakes.api fakes.listings fakes.solr.

(** [ReplaceAll] on strings with and without a match. *)
Example ReplaceAll_examples :
  ReplaceAll "a+b+c" "+" "\+" = "a\+b\+c"
  /\ ReplaceAll "aaa" "aa" "b" = "ba"
  /\ ReplaceAll "abc" "x" "y" = "abc"
  /\ TrimSuffix "http://solr/" "/" = "http://solr"
  /\ TrimSuffix "http://solr" "/" = "http://solr".
Proof. repeat split; reflexivity. Qed.

(** C1, counterexample: page=0 and page_size=0 are not rejected.  The
    validation of the HTTP path accepts both, the handler answers 200,
    and the service, which also accepts page_size=101, searches page 1
    with page size 10. *)
Lemma page_zero_is_accepted :
  controllers.validateSearchRequest
    (controllers.applyDefaults (dto.withPage 0 (dto.withPageSize 10 dto.zero))) = None
  /\ controllers.validateSearchRequest
       (controllers.applyDefaults (dto.withPageSize 0 (dto.withPage 1 dto.zero))) = None
  /\ snd (controllers.SearchController.Search "GET"
            (Ok (dto.withPage 0 (dto.withPageSize 10 dto.zero)))
            {| controllers.SearchController.service := fakes.service [] fakes.store |})
     = (200, Ok fakes.noResults)
  /\ snd (searchService.validateSearchRequest (dto.withPage 0 (dto.withPageSize 10 dto.zero)))
     = None
  /\ snd (searchService.validateSearchRequest (dto.withPageSize 0 (dto.withPage 1 dto.zero)))
     = None
  /\ snd (searchService.validateSearchRequest (dto.withPageSize 101 (dto.withPage 1 dto.zero)))
     = None.
Proof. repeat split; vm_compute; reflexivity. Qed.

Lemma fingerprint_determinism_witness :
  searchService.generateCacheKey
    (fst (searchService.validateSearchRequest (dto.withPage 0 dto.zero)))
  = searchService.generateCacheKey
      (fst (searchService.validateSearchRequest (dto.withPage 1 dto.zero)))
  /\ searchService.Search (dto.withPage 0 dto.zero) (fakes.service [] fakes.store)
     = searchService.Search (dto.withPage 1 dto.zero) (fakes.service [] fakes.store).
Proof.
  destruct (proj1 (fingerprint_determinism (S := list domain.Property)
              (C := cacheRepository.t (option (gmap string string)))
              (A := option (gmap string string)))
              (dto.withPage 0 dto.zero) (dto.withPage 1 dto.zero) eq_refl)
    as [Hkey Hsearch].
  split; [exact Hkey | exact (Hsearch _)].
Defined.

Lemma total_pages_is_ceiling_witness :
  1 <= dto.RespPageSize fakes.onePage
  /\ is_ceiling (dto.TotalPages fakes.onePage) (dto.TotalResults fakes.onePage)
       (dto.RespPageSize fakes.onePage).
Proof.
  apply (total_pages_is_ceiling dto.zero
           (fakes.service [fakes.listing "42" "Loft" "Rome"] fakes.store) fakes.onePage).
  - vm_compute. reflexivity.
  - vm_compute. discriminate.
  - vm_compute. discriminate.
Defined.

(** C8, counterexample: an engine that reports 2^63 - 1 matches, page
    size 2.  total + pageSize - 1 wraps around to - 2^63 and the page
    count returned is - 2^62, while the ceiling is 2^62. *)
Lemma total_pages_overflow :
  quo (sub (add maxInt 2) 1) 2 = - 2 ^ 62
  /\ snd (searchService.Search (solr := fakes.reporting maxInt) (dto.withPageSize 2 dto.zero)
            (fakes.service tt fakes.store))
     = Ok {| dto.Results := []; dto.TotalResults := 9223372036854775807;
             dto.RespPage := 1; dto.RespPageSize := 2;
             dto.TotalPages := -4611686018427387904 |}.
Proof. split; vm_compute; reflexivity. Qed.

Lemma service_accepts_any_page_size_witness :
  snd (searchService.validateSearchRequest (dto.withPageSize 101 dto.zero)) = None
  /\ dto.PageSize (fst (searchService.validateSearchRequest (dto.withPageSize 101 dto.zero)))
     = 101
  /\ searchService.solrRepo
       (fst (searchService.Search (dto.withPageSize 101 dto.zero)
               (fakes.service [] fakes.store)))
     = fst (SolrRepository.Search
              (fst (searchService.validateSearchRequest (dto.withPageSize 101 dto.zero))) [])
  /\ controllers.validateSearchRequest
       (controllers.applyDefaults (dto.withPageSize 101 dto.zero))
     = Some "PageSize must be <= 100".
Proof.
  destruct (service_accepts_any_page_size (S := list domain.Property)
              (C := cacheRepository.t (option (gmap string string)))
              (A := option (gmap string string)) dto.zero 101 ltac:(lia))
    as (Hv & Hps & Hfwd & Hctl).
  split; [exact Hv|]. split; [exact Hps|]. split.
  - apply (Hfwd (fakes.service [] fakes.store)); vm_compute; reflexivity.
  - apply Hctl. lia.
Defined.

(** C5, failing input: the free text [a/b].  The slash, which the
    engine's query syntax reserves as the delimiter of a regular
    expression, reaches the [q] parameter unescaped; the characters the
    function names are escaped. *)
Theorem slash_is_not_escaped :
  escapeSolrQuery "a/b" = "a/b"
  /\ solrRepository.queryParam (dto.withQuery "a/b" dto.zero)
     = "(title:*a/b* OR city:*a/b* OR country:*a/b*)"
  /\ escapeSolrQuery "a*(b"
     = String "a" (String backslash (String "*" (String backslash "(b"))).
Proof. repeat split; vm_compute; reflexivity. Qed.

Lemma Get_two_tiers_witness :
  cacheRepository.Get "k" fakes.warm = (fakes.warm, ([], 3, true))
  /\ snd (cacheRepository.Get "k" (fakes.cold (fakes.holding "12"))) = ([], 12, true)
  /\ cacheRepository.calls (fst (cacheRepository.Get "k" (fakes.cold (fakes.holding "12"))))
     = [cacheRepository.CallGet "k"].
Proof.
  destruct (Get_two_tiers fakes.warm "k") as [Hwarm _].
  destruct (Get_two_tiers (fakes.cold (fakes.holding "12")) "k") as [_ Hcold].
  split.
  - apply (Hwarm {| Properties := []; Total := 3 |}). vm_compute. reflexivity.
  - destruct (Hcold ltac:(vm_compute; reflexivity) (fakes.holding "12")
                (memcache.GetItem {| memcache.Key := "k"; memcache.Value := "12";
                                     memcache.Expiration := 0 |})
                ltac:(vm_compute; reflexivity)) as (_ & Hcalls & Hres).
    split; [exact (proj1 Hres) | exact Hcalls].
Defined.

(** The degraded reads of the cache tier: a miss in both tiers, a value
    that does not parse and a memcached that cannot be reached all give
    found = false. *)
Example Get_degrades_to_miss :
  snd (cacheRepository.Get "k" (fakes.cold (Some ∅))) = ([], 0, false)
  /\ snd (cacheRepository.Get "k" (fakes.cold (fakes.holding "corrupt"))) = ([], 0, false)
  /\ snd (cacheRepository.Get "k" (fakes.cold None)) = ([], 0, false).
Proof. repeat split; vm_compute; reflexivity. Qed.

(** The dispositions of the consumer, one event per clause of the
    policy. *)
Example processMessage_examples :
  let sent body served :=
    RabbitMQConsumer.channel
      (RabbitMQConsumer.processMessage {| amqp.Body := body |} (fakes.consumer served)) in
  sent "{not json" fakes.store = [amqp.Nack false false]
  /\ sent "create" fakes.store = [amqp.Nack false false]
  /\ sent "rename 42" fakes.store = [amqp.Nack false false]
  /\ sent "create 42" None = [amqp.Nack false true]
  /\ sent "create 42" fakes.store = [amqp.Ack false]
  /\ sent "update 42" fakes.store = [amqp.Ack false]
  /\ sent "delete 42" fakes.store = [amqp.Ack false].
Proof. cbv zeta. repeat split; vm_compute; reflexivity. Qed.

Lemma processMessage_disposition_witness :
  RabbitMQConsumer.channel
    (RabbitMQConsumer.processMessage {| amqp.Body := "{not json" |} (fakes.consumer fakes.store))
  = [amqp.Nack false false]
  /\ RabbitMQConsumer.channel
       (RabbitMQConsumer.processMessage {| amqp.Body := "create 42" |} (fakes.consumer None))
     = [amqp.Nack false true]
  /\ RabbitMQConsumer.channel
       (RabbitMQConsumer.processMessage {| amqp.Body := "create 42" |}
          (fakes.consumer fakes.store))
     = [amqp.Ack false].
Proof.
  split; [|split].
  - apply (proj1 (proj2 (processMessage_disposition (platform := fakes.platform)
                           {| amqp.Body := "{not json" |}
                           (fakes.consumer fakes.store)))
             "invalid character").
    reflexivity.
  - destruct (proj2 (proj2 (proj2 (processMessage_disposition (platform := fakes.platform)
                                     {| amqp.Body := "create 42" |}
                                     (fakes.consumer None))))
                "create" "42" ltac:(vm_compute; reflexivity) ltac:(discriminate)) as (_ & Hrequeue & _).
    apply (Hrequeue "error executing request: dial tcp: connection refused").
    vm_compute. reflexivity.
  - destruct (proj2 (proj2 (proj2 (processMessage_disposition (platform := fakes.platform)
                                     {| amqp.Body := "create 42" |}
                                     (fakes.consumer fakes.store))))
                "create" "42" ltac:(vm_compute; reflexivity) ltac:(discriminate)) as (_ & _ & Hack).
    apply Hack. vm_compute. reflexivity.
Defined.

(** C6, counterexample: listing 7 is not in the canonical store, which
    answers 404.  The fetch returns the error it returns for any status,
    and the create event is nacked with requeue, as it is when the store
    cannot be reached at all. *)
Lemma not_found_is_requeued :
  snd (searchService.FetchPropertyFromAPI "7" (fakes.service fakes.core fakes.store))
  = Err "properties API returned status 404: not found"
  /\ snd (searchService.FetchPropertyFromAPI "7" (fakes.service fakes.core None))
     = Err "error executing request: dial tcp: connection refused"
  /\ RabbitMQConsumer.channel
       (RabbitMQConsumer.processMessage {| amqp.Body := "create 7" |}
          (fakes.consumer fakes.store))
     = [amqp.Nack false true]
  /\ RabbitMQConsumer.channel
       (RabbitMQConsumer.processMessage {| amqp.Body := "create 7" |} (fakes.consumer None))
     = [amqp.Nack false true].
Proof. repeat split; vm_compute; reflexivity. Qed.

Lemma fetch_failure_is_requeued_witness :
  snd (searchService.FetchPropertyFromAPI "7" (fakes.service fakes.core fakes.store))
  = Err ("properties API returned status " ++ Itoa 404 ++ ": " ++ "not found")
  /\ RabbitMQConsumer.channel
       (RabbitMQConsumer.processMessage {| amqp.Body := "create 7" |}
          (fakes.consumer fakes.store))
     = [amqp.Nack false true].
Proof.
  refine (fetch_failure_is_requeued {| amqp.Body := "create 7" |} (fakes.consumer fakes.store)
            "create" "7"
            {| http.Method := "GET"; http.URL := "http://api/properties/7";
               http.Body := None; http.Header := [] |}
            fakes.store
            (Ok {| http.StatusCode := 404; http.RespBody := "not found";
                   http.ReadErr := None |})
            _ _ _ _ _ _).
  - reflexivity.
  - discriminate.
  - left. reflexivity.
  - reflexivity.
  - reflexivity.
  - discriminate.
Defined.

(** C2, failing input: a search is answered by the engine and cached;
    listing 42 is then indexed, successfully; the same search still
    returns the cached result without the listing, although the engine
    now finds it. *)
Theorem stale_result_after_index :
  let q := dto.zero in
  let p := fakes.listing "42" "Loft" "Rome" in
  let s0 := fakes.service [] fakes.store in
  let s1 := fst (searchService.Search q s0) in
  let s2 := fst (searchService.IndexProperty p s1) in
  snd (searchService.Search q s0) = Ok fakes.noResults
  /\ snd (searchService.IndexProperty p s1) = None
  /\ searchService.cacheRepo s2 = searchService.cacheRepo s1
  /\ snd (SolrRepository.Search (controllers.applyDefaults q) (searchService.solrRepo s2))
     = ([p], 1, None)
  /\ snd (searchService.Search q s2) = Ok fakes.noResults.
Proof. cbv zeta. repeat split; vm_compute; reflexivity. Qed.

Lemma update_replays_index_witness :
  let once := solrRepository.IndexProperty (fakes.listing "42" "Loft" "Rome") fakes.core in
  let twice := solrRepository.UpdateProperty (fakes.listing "42" "Loft" "Rome") (fst once) in
  snd once = None /\ snd twice = None
  /\ engine.index (solrRepository.httpClient (fst once)) !! "42" = Some "42|Loft|Rome"
  /\ fst twice = fst once.
Proof.
  apply (proj2 (update_replays_index fakes.decode "ok" (fakes.listing "42" "Loft" "Rome")
                  "42|Loft|Rome" "42" "commit" fakes.core)); reflexivity.
Defined.

(** A replayed update with new data replaces the document: one document
    under the key, the newer one. *)
Example update_replaces_document :
  let once := solrRepository.IndexProperty (fakes.listing "42" "Loft" "Rome") fakes.core in
  let twice := solrRepository.UpdateProperty (fakes.listing "42" "Attic" "Rome") (fst once) in
  engine.index (solrRepository.httpClient (fst twice)) = {[ "42" := "42|Attic|Rome" ]}.
Proof. vm_compute. reflexivity. Qed.

End Examples.
